(** * cloudrun-local: environment resolution and credential lifecycle

    A shallow embedding of the Go packages [config], [auth], [secrets] and
    [env] of cloudrun-local, followed by the properties of the
    specification that were checked against them.

    Conventions of the embedding.
    - A Go [string] is a Rocq [string]: a sequence of bytes ([ascii]).
    - A Go [error] is represented by its message (the result of [Error()]);
      [fmt.Errorf("p: %w", err)] is the message [p: ] followed by the
      message of [err].  The nil error is [None].
    - A Go function returning [(T, error)] returns a pair [T * option error];
      a nil pointer or nil slice in the first component is [None] or [[]].
    - Everything outside the process (file system, process environment,
      network, random generator) lives in an explicit [World] that is
      threaded through the calls.  The third-party and standard-library
      entry points used by the program are the fields of the class
      [Runtime]; the properties hold for every instance of it. *)

From Stdlib Require Import String Ascii List NArith ZArith Lia Bool DecimalString.
From stdpp Require Import gmap strings.
Import ListNotations.

Set Default Proof Using "Type".

(** ** Errors and outcomes *)

Definition error := string.

(** Outcome of a call into a library or the operating system. *)
Inductive outcome (A : Type) : Type :=
| Done (a : A)
| Fail (e : error).
Arguments Done {A} a.
Arguments Fail {A} e.

(** Errors of the operating system, as far as the program distinguishes
    them ([os.IsNotExist]). *)
Inductive Errno := ENOENT | EACCES | ENOSPC | EIO.

Definition Errno_Error (e : Errno) : string :=
  match e with
  | ENOENT => "no such file or directory"
  | EACCES => "permission denied"
  | ENOSPC => "no space left on device"
  | EIO => "input/output error"
  end.

Record PathError := mkPathError { Op : string; Path : string; Err : Errno }.

Definition PathError_Error (e : PathError) : error :=
  Op e +:+ " " +:+ Path e +:+ ": " +:+ Errno_Error (Err e).

Definition os_IsNotExist (e : PathError) : bool :=
  match Err e with ENOENT => true | _ => false end.

(** ** Strings *)

(** The double quote character (code 34). *)
Definition dquote : string := String "034"%char EmptyString.

(** [%d] of [fmt]. *)
Definition itoa (n : Z) : string := NilZero.string_of_int (Z.to_int n).

(** [strings.Split(s, sep)] for a separator of one byte, which is how both
    call sites use it: the pieces of [s] between the occurrences of [sep],
    one more than there are occurrences. *)
Fixpoint strings_Split (s : string) (sep : ascii) : list string :=
  match s with
  | EmptyString => [EmptyString]
  | String c rest =>
      if Ascii.eqb c sep then EmptyString :: strings_Split rest sep
      else match strings_Split rest sep with
           | piece :: pieces => String c piece :: pieces
           | [] => [String c EmptyString]
           end
  end.

(** [strings.Join(elems, sep)]. *)
Fixpoint strings_Join (elems : list string) (sep : string) : string :=
  match elems with
  | [] => EmptyString
  | [e] => e
  | e :: rest => e +:+ sep +:+ strings_Join rest sep
  end.

Definition nonempty (s : string) : bool :=
  match s with EmptyString => false | String _ _ => true end.

(** ** The world outside the process *)

Record File := mkFile { perm : N; data : string }.

Record Request := mkRequest {
  Method : string;
  URL : string;
  Authorization : string;
  ReqBody : string }.

Record Response := mkResponse { StatusCode : Z; Body : string }.

(** How [os.WriteFile] can fail: before the file is opened or created, or
    in the middle of the operation, after [written] bytes (the
    documentation of [os.WriteFile]: a failure mid-operation can leave the
    file in a partially written state). *)
Inductive WriteFault :=
| OpenFailed (e : Errno)
| WriteFailed (written : nat) (e : Errno).

(** The entry points of the Go standard library and of the third-party
    packages whose behaviour is not fixed by this repository.  [Ext] is the
    state of whatever they talk to. *)
Class Runtime := {
  Ext : Type;
  (* golang.org/x/oauth2/google *)
  TokenSource : Type;
  google_FindDefaultCredentials : string -> Ext -> outcome TokenSource * Ext;
  TokenSource_Token : TokenSource -> Ext -> outcome string * Ext;
  (* net/http *)
  http_NewRequest : string -> string -> option error;
  http_Do : Request -> Ext -> outcome Response * Ext;
  (* encoding/json *)
  json_Decode_payload_data : string -> outcome string;
  json_Decode_accessToken : string -> outcome string;
  json_String : string -> string;
  json_Compact : string -> outcome string;
  (* path/filepath *)
  filepath_Clean : string -> string;
  (* math/rand/v2: the next raw output of the generator *)
  rand_Uint64 : Ext -> N * Ext;
  (* faults of the file system when writing *)
  os_WriteFile_fault : string -> Ext -> option WriteFault * Ext
}.

Record World `{Runtime} := mkWorld {
  fs : gmap string File;
  environ : gmap string string;
  ext : Ext;
  sent : list Request }.

Section OS.
Context `{RT : Runtime}.

Definition with_ext (w : World) (e : Ext) : World :=
  mkWorld _ (fs w) (environ w) e (sent w).

Definition with_fs (w : World) (m : gmap string File) : World :=
  mkWorld _ m (environ w) (ext w) (sent w).

(** [os.Getenv]: the empty string when the variable is unset. *)
Definition os_Getenv (key : string) (w : World) : string :=
  match environ w !! key with Some v => v | None => EmptyString end.

(** [os.UserHomeDir] on Unix. *)
Definition os_UserHomeDir (w : World) : string * option error :=
  match os_Getenv "HOME" w with
  | EmptyString => (EmptyString, Some "$HOME is not defined")
  | home => (home, None)
  end.

(** [os.TempDir] on Unix. *)
Definition os_TempDir (w : World) : string :=
  match os_Getenv "TMPDIR" w with
  | EmptyString => "/tmp"
  | dir => dir
  end.

(** [filepath.Join]: the elements from the first non-empty one on, joined
    by the separator and cleaned. *)
Fixpoint filepath_Join (elem : list string) : string :=
  match elem with
  | [] => EmptyString
  | EmptyString :: rest => filepath_Join rest
  | _ => filepath_Clean (strings_Join elem "/")
  end.

(** [os.ReadFile]: the file must exist and be readable by its owner. *)
Definition os_ReadFile (name : string) (w : World) : string + PathError :=
  match fs w !! name with
  | None => inr (mkPathError "open" name ENOENT)
  | Some f =>
      if N.testbit (perm f) 8 then inl (data f)
      else inr (mkPathError "open" name EACCES)
  end.

(** [os.WriteFile(name, data, perm)]: creates the file with [perm] when it
    does not exist, truncates it and keeps its permissions otherwise, then
    writes.  A fault while opening leaves the file system as it was; a
    fault while writing leaves the file with the bytes written so far. *)
Definition os_WriteFile (name content : string) (mode : N) (w : World)
  : option PathError * World :=
  let '(fault, e) := os_WriteFile_fault name (ext w) in
  let w := with_ext w e in
  let mode' := match fs w !! name with Some f => perm f | None => mode end in
  match fault with
  | Some (OpenFailed errno) => (Some (mkPathError "open" name errno), w)
  | Some (WriteFailed n errno) =>
      (Some (mkPathError "write" name errno),
       with_fs w (<[name := mkFile mode' (substring 0 n content)]> (fs w)))
  | None => (None, with_fs w (<[name := mkFile mode' content]> (fs w)))
  end.

(** [os.Remove]: deletes the file; a missing file is an error. *)
Definition os_Remove (name : string) (w : World) : option PathError * World :=
  match fs w !! name with
  | Some _ => (None, with_fs w (delete name (fs w)))
  | None => (Some (mkPathError "remove" name ENOENT), w)
  end.

(** [http.DefaultClient.Do]: one round trip; the request is recorded in
    [sent]. *)
Definition http_DefaultClient_Do (req : Request) (w : World)
  : outcome Response * World :=
  let '(r, e) := http_Do req (ext w) in
  (r, mkWorld _ (fs w) (environ w) e (sent w ++ [req])).

(** [rand.IntN(n)]: a number in [0, n) drawn from the generator. *)
Definition rand_IntN (n : N) (w : World) : N * World :=
  let '(raw, e) := rand_Uint64 (ext w) in
  ((raw mod n)%N, with_ext w e).

End OS.

(** ** Package config *)

Module config.

Record SecretRef := mkSecretRef {
  SecretRef_Name : string;
  SecretRef_Key : string }.

Record EnvVar := mkEnvVar {
  EnvVar_Name : string;
  EnvVar_Value : string;
  EnvVar_SecretRef : option SecretRef }.

Record Config := mkConfig {
  ServiceName : string;
  ServiceAccount : string;
  ProjectID : string;
  EnvironmentVars : list EnvVar }.

(** The anonymous structs that the descriptor is unmarshalled into.  The
    env entry is the same in the Service and the Job shape; the two shapes
    differ in the nesting of the pod spec. *)
Record RawEnv := mkRawEnv {
  Raw_Name : string;
  Raw_Value : string;
  Raw_SecretKeyRef_Name : string;
  Raw_SecretKeyRef_Key : string }.

Record RawContainer := mkRawContainer { Raw_Env : list RawEnv }.

Record RawPodSpec := mkRawPodSpec {
  Raw_ServiceAccountName : string;
  Raw_Containers : list RawContainer }.

(** [Service]: [metadata.name] and [spec.template.spec]. *)
Record RawService := mkRawService {
  Service_Metadata_Name : string;
  Service_Spec_Template_Spec : RawPodSpec }.

(** [Job]: [metadata.name] and [spec.template.spec.template.spec]. *)
Record RawJob := mkRawJob {
  Job_Metadata_Name : string;
  Job_Spec_Template_Spec_Template_Spec : RawPodSpec }.

(** The decoders of gopkg.in/yaml.v3 and encoding/json at the types the
    parser uses them at. *)
Class Codec := {
  YamlMap : Type;
  yaml_Unmarshal : string -> outcome YamlMap;
  json_Marshal_map : YamlMap -> outcome string;
  json_Unmarshal_kind : string -> outcome string;
  json_Unmarshal_service : string -> outcome RawService;
  json_Unmarshal_job : string -> outcome RawJob
}.

(** [parseEnvVars]: one [EnvVar] per entry, in order.  A non-empty value
    wins; otherwise a secret reference is kept only when both its name and
    its key are non-empty. *)
Definition parseEnvVar (env : RawEnv) : EnvVar :=
  if nonempty (Raw_Value env) then
    mkEnvVar (Raw_Name env) (Raw_Value env) None
  else if nonempty (Raw_SecretKeyRef_Name env) && nonempty (Raw_SecretKeyRef_Key env) then
    mkEnvVar (Raw_Name env) EmptyString
      (Some (mkSecretRef (Raw_SecretKeyRef_Name env) (Raw_SecretKeyRef_Key env)))
  else
    mkEnvVar (Raw_Name env) EmptyString None.

Fixpoint parseEnvVars_from (envVars : list EnvVar) (envArray : list RawEnv) : list EnvVar :=
  match envArray with
  | [] => envVars
  | env :: rest => parseEnvVars_from (envVars ++ [parseEnvVar env]) rest
  end.

Definition parseEnvVars (envArray : list RawEnv) : list EnvVar :=
  parseEnvVars_from [] envArray.

(** [extractProjectID]: expected format name@project-id.iam.gserviceaccount.com *)
Definition extractProjectID (serviceAccount : string) : string * option error :=
  let parts := strings_Split serviceAccount "@" in
  if negb (length parts =? 2)%nat then
    (EmptyString, Some ("invalid service account format: " +:+ serviceAccount))
  else
    let domainParts := strings_Split (nth 1 parts EmptyString) "." in
    if (length domainParts <? 1)%nat then
      (EmptyString, Some ("invalid service account domain: " +:+ nth 1 parts EmptyString))
    else
      let projectID := nth 0 domainParts EmptyString in
      if nonempty projectID then (projectID, None)
      else (EmptyString,
            Some ("could not extract project ID from service account: " +:+ serviceAccount)).

(** The part of [parseService] and [parseJob] after the descriptor has been
    unmarshalled, which is the same in both. *)
Definition parsePodSpec (name : string) (spec : RawPodSpec) : option Config * option error :=
  if negb (length (Raw_Containers spec) =? 1)%nat then
    (None, Some ("expected exactly 1 container, got "
                 +:+ itoa (Z.of_nat (length (Raw_Containers spec)))))
  else
    let serviceAccount := Raw_ServiceAccountName spec in
    if negb (nonempty serviceAccount) then
      (None, Some "serviceAccountName not found in config")
    else
      match extractProjectID serviceAccount with
      | (_, Some err) => (None, Some ("extract project ID: " +:+ err))
      | (projectID, None) =>
          let envVars :=
            parseEnvVars (Raw_Env (nth 0 (Raw_Containers spec) (mkRawContainer []))) in
          (Some (mkConfig name serviceAccount projectID envVars), None)
      end.

Section WithRuntime.
Context `{RT : Runtime} `{CD : Codec}.

Definition parseService (jsonData : string) : option Config * option error :=
  match json_Unmarshal_service jsonData with
  | Fail err => (None, Some ("unmarshal service json: " +:+ err))
  | Done raw => parsePodSpec (Service_Metadata_Name raw) (Service_Spec_Template_Spec raw)
  end.

Definition parseJob (jsonData : string) : option Config * option error :=
  match json_Unmarshal_job jsonData with
  | Fail err => (None, Some ("unmarshal job json: " +:+ err))
  | Done raw => parsePodSpec (Job_Metadata_Name raw) (Job_Spec_Template_Spec_Template_Spec raw)
  end.

(** [Parse]: reads the descriptor, converts it from YAML to JSON and
    dispatches on its kind. *)
Definition Parse (filename : string) (w : World) : option Config * option error :=
  match os_ReadFile filename w with
  | inr err => (None, Some ("read config file: " +:+ PathError_Error err))
  | inl content =>
      match yaml_Unmarshal content with
      | Fail err => (None, Some ("unmarshal yaml: " +:+ err))
      | Done yamlRaw =>
          match json_Marshal_map yamlRaw with
          | Fail err => (None, Some ("marshal to json: " +:+ err))
          | Done jsonData =>
              match json_Unmarshal_kind jsonData with
              | Fail err => (None, Some ("unmarshal kind: " +:+ err))
              | Done kind =>
                  if String.eqb kind "Service" then parseService jsonData
                  else if String.eqb kind "Job" then parseJob jsonData
                  else (None, Some ("unsupported kind: " +:+ kind
                                    +:+ " (expected Service or Job)"))
              end
          end
      end
  end.

End WithRuntime.
End config.

(** ** encoding/base64, the standard encoding

    [StdEncoding] of the Go standard library (RFC 4648, with padding, not
    strict), written after its [Encode], [Decode] and [decodeQuantum]: the
    encoder packs three bytes into four sextets, the decoder collects four
    sextets into [dbuf], skips carriage returns and line feeds, and accepts
    padding only at the end of the input. *)

Module base64.

Definition encodeStd : string :=
  "ABCDEFGHIJKLMNOPQRSTUVWXYZabcdefghijklmnopqrstuvwxyz0123456789+/".

Definition padChar : ascii := "="%char.

(** [enc.encode[v]] *)
Definition encode (v : N) : ascii :=
  match String.get (N.to_nat v) encodeStd with
  | Some c => c
  | None => "000"%char
  end.

Fixpoint index_from (c : ascii) (alphabet : string) (i : N) : N :=
  match alphabet with
  | EmptyString => 255
  | String a rest => if Ascii.eqb a c then i else index_from c rest (i + 1)
  end.

(** [enc.decodeMap[c]]: the index of [c] in the alphabet, 0xff for every
    other byte. *)
Definition decodeMap (c : ascii) : N := index_from c encodeStd 0.

(** The conversion [byte(v)] of an unsigned integer. *)
Definition byte (v : N) : ascii := ascii_of_N (N.land v 255).

Definition sextet (val shift : N) : ascii :=
  encode (N.land (N.shiftr val shift) 63).

Fixpoint EncodeToString (src : string) : string :=
  match src with
  | EmptyString => EmptyString
  | String c0 EmptyString =>
      let val := N.shiftl (N_of_ascii c0) 16 in
      String (sextet val 18) (String (sextet val 12)
        (String padChar (String padChar EmptyString)))
  | String c0 (String c1 EmptyString) =>
      let val := N.lor (N.shiftl (N_of_ascii c0) 16) (N.shiftl (N_of_ascii c1) 8) in
      String (sextet val 18) (String (sextet val 12)
        (String (sextet val 6) (String padChar EmptyString)))
  | String c0 (String c1 (String c2 rest)) =>
      let val := N.lor (N.lor (N.shiftl (N_of_ascii c0) 16)
                              (N.shiftl (N_of_ascii c1) 8)) (N_of_ascii c2) in
      String (sextet val 18) (String (sextet val 12)
        (String (sextet val 6) (String (sextet val 0) (EncodeToString rest))))
  end.

Definition isNewline (c : ascii) : bool :=
  Ascii.eqb c "010"%char || Ascii.eqb c "013"%char.

(** The loops [for si < len(src) && (src[si] == '\n' || src[si] == '\r')]. *)
Fixpoint skipNewlines (src : string) (si : N) : string * N :=
  match src with
  | EmptyString => (src, si)
  | String c rest => if isNewline c then skipNewlines rest (si + 1) else (src, si)
  end.

(** [val] of [decodeQuantum] for the sextets collected so far. *)
Definition quantum (d0 d1 d2 d3 : N) : N :=
  N.lor (N.lor (N.lor (N.shiftl d0 18) (N.shiftl d1 12)) (N.shiftl d2 6)) d3.

(** The decoding loop: [src] is the input from offset [si] on and [dbuf]
    the sextets of the current quantum.  The result is the decoded bytes, or
    the offset of a [CorruptInputError]. *)
Fixpoint decode (src : string) (si : N) (dbuf : list N) : string + N :=
  match src with
  | EmptyString =>
      match dbuf with
      | [] => inl EmptyString
      | _ => inr (si - N.of_nat (length dbuf))%N
      end
  | String c rest =>
      let si := (si + 1)%N in
      let out := decodeMap c in
      if negb (out =? 255)%N then
        match dbuf with
        | [d0; d1; d2] =>
            let val := quantum d0 d1 d2 out in
            match decode rest si [] with
            | inl tail =>
                inl (String (byte (N.shiftr val 16)) (String (byte (N.shiftr val 8))
                      (String (byte val) tail)))
            | inr off => inr off
            end
        | _ => decode rest si (dbuf ++ [out])
        end
      else if isNewline c then decode rest si dbuf
      else if negb (Ascii.eqb c padChar) then inr (si - 1)%N
      else
        match dbuf with
        | [d0; d1] =>
            let val := quantum d0 d1 0 0 in
            let '(rest1, si1) := skipNewlines rest si in
            match rest1 with
            | EmptyString => inr si1
            | String c' rest2 =>
                if negb (Ascii.eqb c' padChar) then inr (si1 - 1)%N
                else
                  let '(rest3, si3) := skipNewlines rest2 (si1 + 1) in
                  match rest3 with
                  | EmptyString => inl (String (byte (N.shiftr val 16)) EmptyString)
                  | _ => inr si3
                  end
            end
        | [d0; d1; d2] =>
            let val := quantum d0 d1 d2 0 in
            let '(rest1, si1) := skipNewlines rest si in
            match rest1 with
            | EmptyString =>
                inl (String (byte (N.shiftr val 16))
                      (String (byte (N.shiftr val 8)) EmptyString))
            | _ => inr si1
            end
        | _ => inr (si - 1)%N
        end
  end.

(** [StdEncoding.DecodeString].  On an error Go also returns the bytes
    decoded so far; the program drops them, and so does this definition. *)
Definition DecodeString (s : string) : string * option error :=
  match decode s 0 [] with
  | inl decoded => (decoded, None)
  | inr off => (EmptyString, Some ("illegal base64 data at input byte " +:+ itoa (Z.of_N off)))
  end.

End base64.

(** ** Package auth *)

Module auth.

Record Credentials := mkCredentials {
  AccessToken : string;
  CredsFile : string }.

(** The anonymous struct that [createDelegatedCredsFile] marshals;
    [SourceCredentials] is a [json.RawMessage]. *)
Record delegateCreds := mkDelegateCreds {
  Delegates : list string;
  Type_ : string;
  ServiceAccountImpersonationURL : string;
  SourceCredentials : string }.

Definition cloudPlatformScope : string :=
  "https://www.googleapis.com/auth/cloud-platform".

Definition impersonationURL (serviceAccountEmail : string) : string :=
  "https://iamcredentials.googleapis.com/v1/projects/-/serviceAccounts/"
  +:+ serviceAccountEmail +:+ ":generateAccessToken".

Section WithRuntime.
Context `{RT : Runtime}.

(** [json.Marshal] at the types it is used at: an object lists its fields
    in declaration order under their tags, a string slice is an array of
    strings, and a raw message is validated and compacted. *)
Definition json_key (tag : string) : string := dquote +:+ tag +:+ dquote +:+ ":".

Definition json_strings (l : list string) : string :=
  "[" +:+ strings_Join (map json_String l) "," +:+ "]".

Definition json_Marshal_request (delegates scope : list string) : string :=
  "{" +:+ json_key "delegates" +:+ json_strings delegates +:+ ","
      +:+ json_key "scope" +:+ json_strings scope +:+ "}".

Definition json_Marshal_delegateCreds (v : delegateCreds) : outcome string :=
  match json_Compact (SourceCredentials v) with
  | Fail err =>
      Fail ("json: error calling MarshalJSON for type json.RawMessage: " +:+ err)
  | Done source =>
      Done ("{" +:+ json_key "delegates" +:+ json_strings (Delegates v) +:+ ","
                +:+ json_key "type" +:+ json_String (Type_ v) +:+ ","
                +:+ json_key "service_account_impersonation_url"
                +:+ json_String (ServiceAccountImpersonationURL v) +:+ ","
                +:+ json_key "source_credentials" +:+ source +:+ "}")
  end.

(** [Cleanup] removes the temporary credentials file. *)
Definition Cleanup (c : Credentials) (w : World) : option error * World :=
  if negb (nonempty (CredsFile c)) then (None, w)
  else
    match os_Remove (CredsFile c) w with
    | (Some err, w') => (Some (PathError_Error err), w')
    | (None, w') => (None, w')
    end.

(** [getGcloudConfigDir]: CLOUDSDK_CONFIG if set, otherwise
    ~/.config/gcloud. *)
Definition getGcloudConfigDir (w : World) : string * option error :=
  let configDir := os_Getenv "CLOUDSDK_CONFIG" w in
  if negb (nonempty configDir) then
    match os_UserHomeDir w with
    | (_, Some err) => (EmptyString, Some ("get user home directory: " +:+ err))
    | (home, None) => (filepath_Join [home; ".config"; "gcloud"], None)
    end
  else (configDir, None).

(** [applicationDefaultCredentials] reads the local application default
    credentials. *)
Definition applicationDefaultCredentials (w : World) : string * option error :=
  match getGcloudConfigDir w with
  | (_, Some err) => (EmptyString, Some err)
  | (configDir, None) =>
      let path := filepath_Join [configDir; "application_default_credentials.json"] in
      match os_ReadFile path w with
      | inr err =>
          if os_IsNotExist err then
            (EmptyString,
             Some "no application default credentials found. Please authenticate using 'gcloud auth application-default login'")
          else
            (EmptyString,
             Some ("read application default credentials at " +:+ path +:+ ": "
                   +:+ PathError_Error err))
      | inl b => (b, None)
      end
  end.

(** [fetchImpersonatedAccessToken] generates an access token for the
    service account. *)
Definition fetchImpersonatedAccessToken (serviceAccountEmail : string) (w : World)
  : (string * option error) * World :=
  match google_FindDefaultCredentials cloudPlatformScope (ext w) with
  | (Fail err, e) =>
      ((EmptyString, Some ("find default credentials: " +:+ err)), with_ext w e)
  | (Done creds, e) =>
      let w := with_ext w e in
      match TokenSource_Token creds (ext w) with
      | (Fail err, e) =>
          ((EmptyString, Some ("get access token: " +:+ err)), with_ext w e)
      | (Done accessToken, e) =>
          let w := with_ext w e in
          if negb (nonempty accessToken) then
            ((EmptyString, Some "got empty access token"), w)
          else
            let reqBody :=
              json_Marshal_request
                ["projects/-/serviceAccounts/" +:+ serviceAccountEmail]
                [cloudPlatformScope] in
            let url := impersonationURL serviceAccountEmail in
            match http_NewRequest "POST" url with
            | Some err => ((EmptyString, Some err), w)
            | None =>
                let req := mkRequest "POST" url ("Bearer " +:+ accessToken) reqBody in
                match http_DefaultClient_Do req w with
                | (Fail err, w) => ((EmptyString, Some err), w)
                | (Done resp, w) =>
                    if negb (StatusCode resp =? 200)%Z then
                      ((EmptyString,
                        Some ("failed to generate access token (status "
                              +:+ itoa (StatusCode resp) +:+ "): " +:+ Body resp)), w)
                    else
                      match json_Decode_accessToken (Body resp) with
                      | Fail err => ((EmptyString, Some err), w)
                      | Done tokens_AccessToken => ((tokens_AccessToken, None), w)
                      end
                end
            end
      end
  end.

(** [randomLower] generates a random lowercase string of length n. *)
Fixpoint randomLower (n : nat) (w : World) : string * World :=
  match n with
  | O => (EmptyString, w)
  | S n' =>
      let '(r, w) := rand_IntN 26 w in
      let '(b, w) := randomLower n' w in
      (String (ascii_of_N (r + 97)) b, w)
  end.

(** [createDelegatedCredsFile] creates a temporary credentials file with
    the impersonation config. *)
Definition createDelegatedCredsFile (currentADC serviceAccountEmail : string) (w : World)
  : (string * option error) * World :=
  let serviceAccountImpersonationURL := impersonationURL serviceAccountEmail in
  let delegateCreds :=
    mkDelegateCreds
      ["projects/-/serviceAccounts/" +:+ serviceAccountEmail]
      "impersonated_service_account"
      serviceAccountImpersonationURL
      currentADC in
  match json_Marshal_delegateCreds delegateCreds with
  | Fail err => ((EmptyString, Some err), w)
  | Done delegateCredsJSON =>
      let tempDir := os_TempDir w in
      let '(suffix, w) := randomLower 8 w in
      let credsPath :=
        filepath_Join [tempDir; "cloudrun-local-creds-" +:+ suffix +:+ ".json"] in
      match os_WriteFile credsPath delegateCredsJSON 384 w with
      | (Some err, w) => ((EmptyString, Some (PathError_Error err)), w)
      | (None, w) => ((credsPath, None), w)
      end
  end.

(** [GetImpersonatedCredentials] fetches an impersonated access token and
    creates a credentials file. *)
Definition GetImpersonatedCredentials (serviceAccountEmail : string) (w : World)
  : (option Credentials * option error) * World :=
  match applicationDefaultCredentials w with
  | (_, Some err) => ((None, Some err), w)
  | (currentADC, None) =>
      match fetchImpersonatedAccessToken serviceAccountEmail w with
      | ((_, Some err), w) =>
          ((None, Some ("fetch impersonated access token: " +:+ err)), w)
      | ((accessToken, None), w) =>
          match createDelegatedCredsFile currentADC serviceAccountEmail w with
          | ((_, Some err), w) =>
              ((None, Some ("create credentials file: " +:+ err)), w)
          | ((credsFile, None), w) =>
              ((Some (mkCredentials accessToken credsFile), None), w)
          end
      end
  end.

End WithRuntime.
End auth.

(** ** Package secrets *)

Module secrets.

Record Client := mkClient {
  accessToken : string;
  projectID : string }.

Definition NewClient (accessToken projectID : string) : Client :=
  mkClient accessToken projectID.

Definition secretPath (c : Client) (secretName version : string) : string :=
  "projects/" +:+ projectID c +:+ "/secrets/" +:+ secretName +:+ "/versions/" +:+ version.

Section WithRuntime.
Context `{RT : Runtime}.

(** [AccessSecretVersion] retrieves a secret value from Secret Manager. *)
Definition AccessSecretVersion (c : Client) (secretName version : string) (w : World)
  : (string * option error) * World :=
  let secretPath := secretPath c secretName version in
  let url := "https://secretmanager.googleapis.com/v1/" +:+ secretPath +:+ ":access" in
  match http_NewRequest "GET" url with
  | Some err => ((EmptyString, Some err), w)
  | None =>
      let req := mkRequest "GET" url ("Bearer " +:+ accessToken c) EmptyString in
      match http_DefaultClient_Do req w with
      | (Fail err, w) => ((EmptyString, Some err), w)
      | (Done resp, w) =>
          if ((StatusCode resp <? 200) || (299 <? StatusCode resp))%Z then
            ((EmptyString,
              Some ("expected 200 response status, received " +:+ itoa (StatusCode resp))), w)
          else
            match json_Decode_payload_data (Body resp) with
            | Fail err => ((EmptyString, Some err), w)
            | Done responseBody_Payload_Data =>
                if negb (nonempty responseBody_Payload_Data) then
                  ((EmptyString, Some ("no value for secret " +:+ secretPath)), w)
                else
                  match base64.DecodeString responseBody_Payload_Data with
                  | (_, Some err) => ((EmptyString, Some err), w)
                  | (decodedData, None) => ((decodedData, None), w)
                  end
            end
      end
  end.

End WithRuntime.
End secrets.

(** ** Package env *)

Module env.

(** [creds] is a pointer that [Cleanup] tests for nil. *)
Record Resolver := mkResolver {
  config : config.Config;
  creds : option auth.Credentials }.

Section WithRuntime.
Context `{RT : Runtime}.

(** [NewResolver] creates a new environment resolver. *)
Definition NewResolver (cfg : config.Config) (w : World)
  : (option Resolver * option error) * World :=
  match auth.GetImpersonatedCredentials (config.ServiceAccount cfg) w with
  | ((_, Some err), w) => ((None, Some ("get impersonated credentials: " +:+ err)), w)
  | ((creds, None), w) => ((Some (mkResolver cfg creds), None), w)
  end.

(** The loop of [Resolve] over the declarations that are left, with the
    entries appended so far. *)
Fixpoint resolveEnvVars (secretsClient : secrets.Client) (envVars : list config.EnvVar)
    (result : list string) (w : World) : (list string * option error) * World :=
  match envVars with
  | [] => ((result, None), w)
  | envVar :: rest =>
      if nonempty (config.EnvVar_Value envVar) then
        resolveEnvVars secretsClient rest
          (result ++ [config.EnvVar_Name envVar +:+ "=" +:+ config.EnvVar_Value envVar]) w
      else
        match config.EnvVar_SecretRef envVar with
        | Some ref =>
            match secrets.AccessSecretVersion secretsClient
                    (config.SecretRef_Name ref) (config.SecretRef_Key ref) w with
            | ((_, Some err), w) =>
                (([], Some ("access secret " +:+ config.SecretRef_Name ref +:+ ": " +:+ err)), w)
            | ((secretValue, None), w) =>
                resolveEnvVars secretsClient rest
                  (result ++ [config.EnvVar_Name envVar +:+ "=" +:+ secretValue]) w
            end
        | None => resolveEnvVars secretsClient rest result w
        end
  end.

(** The Cloud Run metadata variables that [Resolve] starts with. *)
Definition metadataVars (cfg : config.Config) (c : auth.Credentials) : list string :=
  let result := [] in
  let result :=
    if nonempty (config.ServiceName cfg)
    then result ++ ["K_SERVICE=" +:+ config.ServiceName cfg]
    else result in
  let result := result ++ ["K_REVISION=local"] in
  let result := result ++ ["GOOGLE_CLOUD_PROJECT=" +:+ config.ProjectID cfg] in
  result ++ ["GOOGLE_APPLICATION_CREDENTIALS=" +:+ auth.CredsFile c].

(** [Resolve] returns all environment variables as KEY=value strings.
    [None] is the run-time panic of dereferencing a nil [creds]. *)
Definition Resolve (r : Resolver) (w : World)
  : option ((list string * option error) * World) :=
  match creds r with
  | None => None
  | Some c =>
      let result := metadataVars (config r) c in
      let secretsClient :=
        secrets.NewClient (auth.AccessToken c) (config.ProjectID (config r)) in
      Some (resolveEnvVars secretsClient (config.EnvironmentVars (config r)) result w)
  end.

(** [Cleanup] removes temporary files created during resolution. *)
Definition Cleanup (r : Resolver) (w : World) : option error * World :=
  match creds r with
  | Some c => auth.Cleanup c w
  | None => (None, w)
  end.

End WithRuntime.
End env.

(** ** A scripted runtime

    A concrete instance of [Runtime], used to run the program on examples:
    the endpoints answer from a script, the generator is a linear
    congruential one, and the JSON functions handle the documents of the
    examples. *)

Module scripted.

Record Script := mkScript {
  find : outcome unit;
  token : outcome string;
  responses : list (outcome Response);
  seed : N;
  faults : list (option WriteFault) }.

Definition nextResponse (req : Request) (e : Script) : outcome Response * Script :=
  match responses e with
  | r :: rest => (r, mkScript (find e) (token e) rest (seed e) (faults e))
  | [] => (Fail "connection refused", e)
  end.

Definition nextRandom (e : Script) : N * Script :=
  (seed e,
   mkScript (find e) (token e) (responses e)
     ((seed e * 6364136223846793005 + 1442695040888963407) mod 2 ^ 64)%N (faults e)).

Definition nextFault (name : string) (e : Script) : option WriteFault * Script :=
  match faults e with
  | f :: rest => (f, mkScript (find e) (token e) (responses e) (seed e) rest)
  | [] => (None, e)
  end.

Fixpoint stripPrefix (p s : string) : option string :=
  match p, s with
  | EmptyString, _ => Some s
  | String a p', String b s' => if Ascii.eqb a b then stripPrefix p' s' else None
  | String _ _, EmptyString => None
  end.

Fixpoint untilQuote (s : string) : string :=
  match s with
  | EmptyString => EmptyString
  | String c rest => if Ascii.eqb c "034"%char then EmptyString else String c (untilQuote rest)
  end.

(** Reads the string that follows [opening] in [body]; a body without it
    leaves the field at its zero value. *)
Definition stringField (opening body : string) : outcome string :=
  match body with
  | EmptyString => Fail "EOF"
  | _ =>
      match stripPrefix opening body with
      | Some rest => Done (untilQuote rest)
      | None => Done EmptyString
      end
  end.

Definition payloadOpening : string :=
  "{" +:+ dquote +:+ "payload" +:+ dquote +:+ ":{" +:+ dquote +:+ "data" +:+ dquote +:+ ":" +:+ dquote.

Definition tokenOpening : string :=
  "{" +:+ dquote +:+ "accessToken" +:+ dquote +:+ ":" +:+ dquote.

Definition payloadBody (encoded : string) : string :=
  payloadOpening +:+ encoded +:+ dquote +:+ "}}".

Definition tokenBody (tok : string) : string :=
  tokenOpening +:+ tok +:+ dquote +:+ "}".

#[export] Instance runtime : Runtime := {|
  Ext := Script;
  TokenSource := unit;
  google_FindDefaultCredentials := fun _ e => (find e, e);
  TokenSource_Token := fun _ e => (token e, e);
  http_NewRequest := fun _ _ => None;
  http_Do := nextResponse;
  json_Decode_payload_data := stringField payloadOpening;
  json_Decode_accessToken := stringField tokenOpening;
  json_String := fun s => dquote +:+ s +:+ dquote;
  json_Compact := fun s =>
    if nonempty s then Done s else Fail "unexpected end of JSON input";
  filepath_Clean := fun s => s;
  rand_Uint64 := nextRandom;
  os_WriteFile_fault := nextFault
|}.

(** The descriptor of the end-to-end scenario: a service [svc] run as
    [sa@proj.iam.gserviceaccount.com] with a literal [FOO=bar] and a secret
    [BAZ] taken from version [latest] of [s]. *)
Definition descriptorText : string := "kind: Service (svc)".

Definition descriptorRaw : config.RawService :=
  config.mkRawService "svc"
    (config.mkRawPodSpec "sa@proj.iam.gserviceaccount.com"
       [config.mkRawContainer
          [config.mkRawEnv "FOO" "bar" EmptyString EmptyString;
           config.mkRawEnv "BAZ" EmptyString "s" "latest"]]).

#[export] Instance codec : config.Codec := {|
  config.YamlMap := string;
  config.yaml_Unmarshal := fun s => Done s;
  config.json_Marshal_map := fun m => Done m;
  config.json_Unmarshal_kind := fun s =>
    if String.eqb s descriptorText then Done "Service" else Done EmptyString;
  config.json_Unmarshal_service := fun s =>
    if String.eqb s descriptorText then Done descriptorRaw
    else Fail "unexpected end of JSON input";
  config.json_Unmarshal_job := fun s => Fail "unexpected end of JSON input"
|}.

Definition adcPath : string := "/home/dev/.config/gcloud/application_default_credentials.json".

Definition adcJSON : string := "{}".

(** A workstation with standing credentials and nothing else. *)
Definition workstation (e : Script) : World :=
  mkWorld _
    {[ adcPath := mkFile 384 adcJSON; "service.yaml" := mkFile 420 descriptorText ]}
    {[ "HOME" := "/home/dev" ]} e [].

Definition quiet : Script := mkScript (Done tt) (Done "caller-token") [] 7 [].

Definition answering (rs : list (outcome Response)) : Script :=
  mkScript (Done tt) (Done "caller-token") rs 7 [].

Definition failing (rs : list (outcome Response)) (fs : list (option WriteFault)) : Script :=
  mkScript (Done tt) (Done "caller-token") rs 7 fs.

(** The configuration that the descriptor parses to, and a resolver for it
    whose credential has already been acquired. *)
Definition cfg : config.Config :=
  config.mkConfig "svc" "sa@proj.iam.gserviceaccount.com" "proj"
    [config.mkEnvVar "FOO" "bar" None;
     config.mkEnvVar "BAZ" EmptyString (Some (config.mkSecretRef "s" "latest"))].

Definition artifact : string := "/tmp/cloudrun-local-creds-abcdefgh.json".

Definition resolver : env.Resolver :=
  env.mkResolver cfg (Some (auth.mkCredentials "tok" artifact)).

(** The workstation after the credential artifact has been written. *)
Definition acquired (e : Script) : World :=
  mkWorld _
    {[ adcPath := mkFile 384 adcJSON; artifact := mkFile 384 "{}" ]}
    {[ "HOME" := "/home/dev" ]} e [].

(** A workstation whose disk fills up while the artifact is written: the
    token exchange succeeds and the write fails after one byte. *)
Definition diskFull : World :=
  workstation
    (failing [Done (mkResponse 200 (tokenBody "tok"))] [Some (WriteFailed 1 ENOSPC)]).

End scripted.

(** ** The vocabulary of the specification *)

Module spec.

(** Number of occurrences of a byte in a string. *)
Fixpoint count (c : ascii) (s : string) : nat :=
  match s with
  | EmptyString => 0
  | String a rest => (if Ascii.eqb a c then 1 else 0) + count c rest
  end.

(** The part of a string before the first occurrence of [c] (all of it when
    there is none) and the part after it. *)
Fixpoint before (c : ascii) (s : string) : string :=
  match s with
  | EmptyString => EmptyString
  | String a rest => if Ascii.eqb a c then EmptyString else String a (before c rest)
  end.

Fixpoint after (c : ascii) (s : string) : string :=
  match s with
  | EmptyString => EmptyString
  | String a rest => if Ascii.eqb a c then rest else after c rest
  end.

(** The domain part of an email-shaped identity. *)
Definition domain (identity : string) : string := after "@" identity.

(** The label before the first dot of a domain. *)
Definition firstLabel (d : string) : string := before "." d.

(** Eight lowercase letters. *)
Definition lowercase (c : ascii) : Prop := (97 <= N_of_ascii c <= 122)%N.

Fixpoint all_lowercase (s : string) : Prop :=
  match s with
  | EmptyString => True
  | String c rest => lowercase c /\ all_lowercase rest
  end.

End spec.

(** ** Package main *)

Module main.

Definition version : string := "0.1.0".

Definition newline : string := String "010"%char EmptyString.

(** The flags after [flag.Parse], and [flag.Args()]. *)
Record Flags := mkFlags {
  configFile : string;
  showVersion : bool;
  showHelp : bool;
  command : list string }.

(** How [cmd.Run] of os/exec ends: the child ran and exited with status
    zero, it exited with another status (an [*exec.ExitError]), or it could
    not be run. *)
Inductive RunOutcome :=
| Ran
| ExitError (code : Z)
| RunFailed (e : error).

(** The child process: it is given its arguments and its environment, and
    it may change the world like any other process. *)
Class Process `{Runtime} := {
  exec_Run : list string -> list string -> World -> RunOutcome * World
}.

(** How [run] ends: it returns, the process exits inside it ([os.Exit],
    which runs no deferred function), or it panics. *)
Inductive Termination :=
| Returned (err : option error)
| Exited (code : Z)
| Panicked.

Record Outcome := mkOutcome {
  termination : Termination;
  stdout : list string;
  stderr : list string }.

Definition helpText : string :=
"cloudrun-local - Run Cloud Run services locally with proper service account impersonation

USAGE:
    cloudrun-local [FLAGS] [-- COMMAND [ARGS...]]

FLAGS:
    -c, --config <file>    Path to Cloud Run service YAML config file (default: service.yaml)
    -h, --help             Show this help message
    -v, --version          Show version information

EXAMPLES:
    # Print environment variables
    cloudrun-local --config=service.yaml

    # Run a Go service with the environment
    cloudrun-local -c service.yaml -- go run ./cmd/server

    # Run with default config file (service.yaml)
    cloudrun-local -- npm start

    # Save environment to a file
    cloudrun-local > .env

DESCRIPTION:
    cloudrun-local reads a Cloud Run service configuration YAML file, impersonates
    the configured service account using your local gcloud credentials, resolves
    environment variables (including secrets from Secret Manager), and either prints
    them or executes a command with that environment.

    The tool requires:
    - Authenticated gcloud CLI (gcloud auth application-default login)
    - Permissions to impersonate the service account
    - Access to secrets referenced in the configuration

    Environment variables are resolved with the following priority (highest first):
    1. Current shell environment (allows overriding config values)
    2. Cloud Run configuration YAML
    3. Automatic variables (K_SERVICE, K_REVISION, etc.)

CONFIGURATION:
    The service account is read from: spec.template.spec.serviceAccountName
    The project ID is extracted from the service account email
    Environment variables are read from: spec.template.spec.containers[0].env".

Section WithRuntime.
Context `{RT : Runtime} `{CD : config.Codec} `{PR : !Process}.

(** [os.Environ]: the process environment as KEY=value strings. *)
Definition os_Environ (w : World) : list string :=
  map (fun kv => fst kv +:+ "=" +:+ snd kv) (map_to_list (environ w)).

(** The deferred function of [run]: it cleans up and reports a failure of
    the cleanup as a warning. *)
Definition deferredCleanup (resolver : env.Resolver) (w : World) : list string * World :=
  match env.Cleanup resolver w with
  | (Some err, w) => (["Warning: cleanup failed: " +:+ err +:+ newline], w)
  | (None, w) => ([], w)
  end.

(** [run] after the flags have been parsed.  The goroutine that cancels the
    context on a signal only affects the calls that take the context, whose
    outcomes are those of the runtime. *)
Definition run (flags : Flags) (w : World) : Outcome * World :=
  if showVersion flags then
    (mkOutcome (Returned None) ["cloudrun-local version " +:+ version +:+ newline] [], w)
  else if showHelp flags then
    (mkOutcome (Returned None) [helpText +:+ newline] [], w)
  else
    match config.Parse (configFile flags) w with
    | (_, Some err) => (mkOutcome (Returned (Some ("parse config: " +:+ err))) [] [], w)
    | (None, None) => (mkOutcome Panicked [] [], w)
    | (Some cfg, None) =>
        match env.NewResolver cfg w with
        | ((_, Some err), w) =>
            (mkOutcome (Returned (Some ("create env resolver: " +:+ err))) [] [], w)
        | ((None, None), w) => (mkOutcome Panicked [] [], w)
        | ((Some resolver, None), w) =>
            match env.Resolve resolver w with
            | None =>
                let '(warnings, w) := deferredCleanup resolver w in
                (mkOutcome Panicked [] warnings, w)
            | Some ((_, Some err), w) =>
                let '(warnings, w) := deferredCleanup resolver w in
                (mkOutcome (Returned (Some ("resolve environment: " +:+ err))) [] warnings, w)
            | Some ((envVars, None), w) =>
                match command flags with
                | [] =>
                    let printed := map (fun envVar => envVar +:+ newline) envVars in
                    let '(warnings, w) := deferredCleanup resolver w in
                    (mkOutcome (Returned None) printed warnings, w)
                | _ =>
                    match exec_Run (command flags) (envVars ++ os_Environ w) w with
                    | (ExitError code, w) => (mkOutcome (Exited code) [] [], w)
                    | (RunFailed err, w) =>
                        let '(warnings, w) := deferredCleanup resolver w in
                        (mkOutcome (Returned (Some ("execute command: " +:+ err))) [] warnings, w)
                    | (Ran, w) =>
                        let '(warnings, w) := deferredCleanup resolver w in
                        (mkOutcome (Returned None) [] warnings, w)
                    end
                end
            end
        end
    end.

(** [main]: the exit status of the process and what it wrote. *)
Definition main (flags : Flags) (w : World) : (Z * list string * list string) * World :=
  match run flags w with
  | (mkOutcome (Returned (Some err)) out errs, w) =>
      ((1%Z, out, errs ++ ["Error: " +:+ err +:+ newline]), w)
  | (mkOutcome (Returned None) out errs, w) => ((0%Z, out, errs), w)
  | (mkOutcome (Exited code) out errs, w) => ((code, out, errs), w)
  | (mkOutcome Panicked out errs, w) => ((2%Z, out, errs), w)
  end.

End WithRuntime.
End main.

(** A child process for the scripted runtime: [false] exits with status 1,
    [missing] cannot be found, every other command runs and exits with
    status 0. No command touches the world. *)
Module scripted_process.

#[export] Instance process : main.Process (H := scripted.runtime) := {|
  main.exec_Run := fun cmd _ w =>
    match cmd with
    | "false"%string :: _ => (main.ExitError 1, w)
    | "missing"%string :: _ =>
        (main.RunFailed "exec: missing: executable file not found in $PATH", w)
    | _ => (main.Ran, w)
    end
|}.

(** A workstation whose token endpoint and secret endpoint both answer. *)
Definition ready : World :=
  scripted.workstation
    (scripted.answering
       [Done (mkResponse 200 (scripted.tokenBody "tok"));
        Done (mkResponse 200 (scripted.payloadBody "cXV4"))]).

End scripted_process.

(** * Properties *)

(** ** Splitting strings *)

Lemma Split_length s c : length (strings_Split s c) = S (spec.count c s).
Proof.
  induction s as [|a s IH]; simpl; [reflexivity|].
  destruct (Ascii.eqb a c); simpl; [now rewrite IH|].
  destruct (strings_Split s c); simpl in *; lia.
Qed.

Lemma Split_first s c : nth 0 (strings_Split s c) EmptyString = spec.before c s.
Proof.
  induction s as [|a s IH]; simpl; [reflexivity|].
  destruct (Ascii.eqb a c); simpl; [reflexivity|].
  pose proof (Split_length s c) as Hlen.
  destruct (strings_Split s c); simpl in *; [lia|now rewrite IH].
Qed.

Lemma before_absent s c : spec.count c s = 0 -> spec.before c s = s.
Proof.
  induction s as [|a s IH]; simpl; [reflexivity|].
  destruct (Ascii.eqb a c); simpl; [lia|]. intros Hc. now rewrite IH.
Qed.

Lemma Split_second s c :
  spec.count c s = 1 -> nth 1 (strings_Split s c) EmptyString = spec.after c s.
Proof.
  induction s as [|a s IH]; simpl; [lia|].
  destruct (Ascii.eqb a c); simpl.
  - intros Hc. rewrite Split_first. apply before_absent. lia.
  - intros Hc. pose proof (Split_length s c) as Hlen.
    destruct (strings_Split s c); simpl in *; [lia|]. now apply IH.
Qed.

Lemma nonempty_false s : nonempty s = false -> s = EmptyString.
Proof. destruct s; [reflexivity | discriminate]. Qed.

Lemma nonempty_true s : nonempty s = true <-> s <> EmptyString.
Proof. destruct s; simpl; split; congruence. Qed.

(** ** The project id *)

Lemma extractProjectID_accepts sa pid :
  config.extractProjectID sa = (pid, None) ->
  spec.count "@" sa = 1 /\ pid = spec.firstLabel (spec.domain sa) /\ pid <> EmptyString.
Proof.
  unfold config.extractProjectID. rewrite !Split_length.
  destruct (Nat.eqb_spec (S (spec.count "@" sa)) 2) as [H2|H2]; simpl; [|discriminate].
  assert (spec.count "@" sa = 1) as Hone by lia.
  rewrite Split_first, Split_second by exact Hone.
  destruct (nonempty (spec.before "." (spec.after "@" sa))) eqn:Hne; [|discriminate].
  intros [= <-]. repeat split; [exact Hone|]. now apply nonempty_true.
Qed.

Lemma extractProjectID_rejects sa :
  spec.count "@" sa <> 1 ->
  config.extractProjectID sa
  = (EmptyString, Some ("invalid service account format: " +:+ sa)).
Proof.
  intros Hc. unfold config.extractProjectID. rewrite Split_length.
  destruct (Nat.eqb_spec (S (spec.count "@" sa)) 2) as [H2|H2]; simpl; [lia|reflexivity].
Qed.

Lemma parsePodSpec_accepts name podspec cfg :
  config.parsePodSpec name podspec = (Some cfg, None) ->
  config.ServiceAccount cfg = config.Raw_ServiceAccountName podspec /\
  config.extractProjectID (config.ServiceAccount cfg) = (config.ProjectID cfg, None).
Proof.
  unfold config.parsePodSpec.
  destruct (negb _); [discriminate|].
  destruct (negb _); [discriminate|].
  destruct (config.extractProjectID _) as [pid [err|]] eqn:Hx; [discriminate|].
  intros [= <-]. simpl. now split.
Qed.

Lemma parsePodSpec_rejects name podspec :
  spec.count "@" (config.Raw_ServiceAccountName podspec) <> 1 ->
  exists err, config.parsePodSpec name podspec = (None, Some err).
Proof.
  intros Hc. unfold config.parsePodSpec.
  destruct (negb _); [eauto|].
  destruct (negb _); [eauto|].
  rewrite extractProjectID_rejects by exact Hc. eauto.
Qed.

Section ParseFacts.
Context `{RT : Runtime} `{CD : config.Codec}.

Lemma Parse_accepts filename w cfg :
  config.Parse filename w = (Some cfg, None) ->
  exists name podspec,
    config.parsePodSpec name podspec = (Some cfg, None).
Proof.
  unfold config.Parse, config.parseService, config.parseJob.
  destruct (os_ReadFile filename w); [|discriminate].
  destruct (config.yaml_Unmarshal _); [|discriminate].
  destruct (config.json_Marshal_map _); [|discriminate].
  destruct (config.json_Unmarshal_kind _) as [kind|]; [|discriminate].
  destruct (String.eqb kind "Service").
  - destruct (config.json_Unmarshal_service _); [eauto|discriminate].
  - destruct (String.eqb kind "Job"); [|discriminate].
    destruct (config.json_Unmarshal_job _); [eauto|discriminate].
Qed.

(** C5. For every descriptor accepted by the parser, the target identity has
    exactly one at sign and the project id is the non-empty label before the
    first dot of its domain part; and an identity string with no at sign or
    with more than one is rejected by [extractProjectID], hence by the
    Service and the Job parser, with an error. *)
Theorem project_id_is_first_label_of_domain :
  (forall filename w cfg,
      config.Parse filename w = (Some cfg, None) ->
      spec.count "@" (config.ServiceAccount cfg) = 1 /\
      config.ProjectID cfg = spec.firstLabel (spec.domain (config.ServiceAccount cfg)) /\
      config.ProjectID cfg <> EmptyString) /\
  (forall identity,
      spec.count "@" identity <> 1 ->
      config.extractProjectID identity
      = (EmptyString, Some ("invalid service account format: " +:+ identity)) /\
      (forall jsonData raw,
          config.json_Unmarshal_service jsonData = Done raw ->
          config.Raw_ServiceAccountName (config.Service_Spec_Template_Spec raw) = identity ->
          exists err, config.parseService jsonData = (None, Some err)) /\
      (forall jsonData raw,
          config.json_Unmarshal_job jsonData = Done raw ->
          config.Raw_ServiceAccountName (config.Job_Spec_Template_Spec_Template_Spec raw)
          = identity ->
          exists err, config.parseJob jsonData = (None, Some err))).
Proof.
  split.
  - intros filename w cfg Hparse.
    destruct (Parse_accepts _ _ _ Hparse) as (name & podspec & Hpod).
    destruct (parsePodSpec_accepts _ _ _ Hpod) as [_ Hx].
    now apply extractProjectID_accepts.
  - intros identity Hc. split; [now apply extractProjectID_rejects|].
    split; intros jsonData raw Hraw Hid.
    + unfold config.parseService. rewrite Hraw.
      apply parsePodSpec_rejects. now rewrite Hid.
    + unfold config.parseJob. rewrite Hraw.
      apply parsePodSpec_rejects. now rewrite Hid.
Qed.

End ParseFacts.

Lemma project_id_example :
  config.Parse (RT := scripted.runtime) (CD := scripted.codec)
    "service.yaml" (scripted.workstation scripted.quiet)
  = (Some (config.mkConfig "svc" "sa@proj.iam.gserviceaccount.com" "proj"
             [config.mkEnvVar "FOO" "bar" None;
              config.mkEnvVar "BAZ" EmptyString (Some (config.mkSecretRef "s" "latest"))]),
     None) /\
  "proj" = spec.firstLabel (spec.domain "sa@proj.iam.gserviceaccount.com") /\
  config.extractProjectID "a@b@c.d"
  = (EmptyString, Some "invalid service account format: a@b@c.d").
Proof.
  destruct (project_id_is_first_label_of_domain
              (RT := scripted.runtime) (CD := scripted.codec)) as [Haccept Hreject].
  assert (config.Parse (RT := scripted.runtime) (CD := scripted.codec)
            "service.yaml" (scripted.workstation scripted.quiet)
          = (Some (config.mkConfig "svc" "sa@proj.iam.gserviceaccount.com" "proj"
                     [config.mkEnvVar "FOO" "bar" None;
                      config.mkEnvVar "BAZ" EmptyString
                        (Some (config.mkSecretRef "s" "latest"))]),
             None)) as Hparse by (vm_compute; reflexivity).
  split; [exact Hparse|]. split.
  - exact (proj1 (proj2 (Haccept _ _ _ Hparse))).
  - apply (Hreject "a@b@c.d"). vm_compute. lia.
Defined.

(** ** The resolution loop *)

Lemma parseEnvVars_from_map acc l :
  config.parseEnvVars_from acc l = acc ++ map config.parseEnvVar l.
Proof.
  revert acc. induction l as [|d l IH]; intros acc; simpl.
  - now rewrite app_nil_r.
  - rewrite IH, <- app_assoc. reflexivity.
Qed.

Lemma parseEnvVars_map l : config.parseEnvVars l = map config.parseEnvVar l.
Proof. unfold config.parseEnvVars. now rewrite parseEnvVars_from_map. Qed.

Lemma parseEnvVars_app l1 l2 :
  config.parseEnvVars (l1 ++ l2) = config.parseEnvVars l1 ++ config.parseEnvVars l2.
Proof. rewrite !parseEnvVars_map. apply map_app. Qed.

Lemma parseEnvVar_literal d :
  config.Raw_Value d <> EmptyString ->
  config.parseEnvVar d = config.mkEnvVar (config.Raw_Name d) (config.Raw_Value d) None.
Proof.
  intros Hv. unfold config.parseEnvVar.
  destruct (config.Raw_Value d); [congruence|reflexivity].
Qed.

Lemma parseEnvVar_incomplete d :
  config.Raw_Value d = EmptyString ->
  config.Raw_SecretKeyRef_Name d = EmptyString \/ config.Raw_SecretKeyRef_Key d = EmptyString ->
  config.parseEnvVar d = config.mkEnvVar (config.Raw_Name d) EmptyString None.
Proof.
  intros Hv Hs. unfold config.parseEnvVar. rewrite Hv. simpl.
  destruct Hs as [-> | ->]; simpl; [reflexivity|].
  now rewrite andb_false_r.
Qed.

Section ResolveFacts.
Context `{RT : Runtime}.

(** Resolving a list of declarations is resolving its first part and then,
    unless that failed, the rest. *)
Lemma resolveEnvVars_app c pre post acc w :
  env.resolveEnvVars c (pre ++ post) acc w
  = match env.resolveEnvVars c pre acc w with
    | ((out, None), w1) => env.resolveEnvVars c post out w1
    | failure => failure
    end.
Proof.
  revert acc w. induction pre as [|d pre IH]; intros acc w; simpl; [reflexivity|].
  destruct (nonempty (config.EnvVar_Value d)); [apply IH|].
  destruct (config.EnvVar_SecretRef d) as [ref|]; [|apply IH].
  destruct (secrets.AccessSecretVersion c _ _ w) as [[v [err|]] w1]; [reflexivity|apply IH].
Qed.

(** The entries already appended are a prefix of the result. *)
Lemma resolveEnvVars_acc c vars acc w :
  env.resolveEnvVars c vars acc w
  = match env.resolveEnvVars c vars [] w with
    | ((out, None), w1) => ((acc ++ out, None), w1)
    | failure => failure
    end.
Proof.
  revert acc w. induction vars as [|d vars IH]; intros acc w; simpl.
  - now rewrite app_nil_r.
  - destruct (nonempty (config.EnvVar_Value d)).
    + rewrite (IH (acc ++ _)), (IH [_]).
      destruct (env.resolveEnvVars c vars [] w) as [[out [err|]] w1]; [reflexivity|].
      now rewrite <- app_assoc.
    + destruct (config.EnvVar_SecretRef d) as [ref|]; [|apply IH].
      destruct (secrets.AccessSecretVersion c _ _ w) as [[v [err|]] w1]; [reflexivity|].
      rewrite (IH (acc ++ _)), (IH [_]).
      destruct (env.resolveEnvVars c vars [] w1) as [[out [err|]] w2]; [reflexivity|].
      now rewrite <- app_assoc.
Qed.

(** C1. The sequence returned by a successful [Resolve] is K_SERVICE=name
    exactly when the service name is not empty, then K_REVISION=local,
    GOOGLE_CLOUD_PROJECT=project and GOOGLE_APPLICATION_CREDENTIALS=path in
    this order, then the entries that the declarations produce. *)
Theorem resolve_starts_with_metadata r w out w' :
  env.Resolve r w = Some ((out, None), w') ->
  exists c entries,
    env.creds r = Some c /\
    env.resolveEnvVars
      (secrets.NewClient (auth.AccessToken c) (config.ProjectID (env.config r)))
      (config.EnvironmentVars (env.config r)) [] w = ((entries, None), w') /\
    out = (if nonempty (config.ServiceName (env.config r))
           then ["K_SERVICE=" +:+ config.ServiceName (env.config r)] else [])
          ++ ["K_REVISION=local";
              "GOOGLE_CLOUD_PROJECT=" +:+ config.ProjectID (env.config r);
              "GOOGLE_APPLICATION_CREDENTIALS=" +:+ auth.CredsFile c]
          ++ entries /\
    (head out = Some ("K_SERVICE=" +:+ config.ServiceName (env.config r))
     <-> config.ServiceName (env.config r) <> EmptyString).
Proof.
  unfold env.Resolve. destruct (env.creds r) as [c|]; [|discriminate].
  rewrite resolveEnvVars_acc.
  destruct (env.resolveEnvVars _ _ [] w) as [[entries [err|]] w1] eqn:Hloop; [discriminate|].
  intros [= <- <-]. exists c, entries. split; [reflexivity|]. split; [exact Hloop|].
  unfold env.metadataVars.
  destruct (config.ServiceName (env.config r)) as [|a name]; simpl.
  - split; [reflexivity|]. split; [discriminate|congruence].
  - split; [reflexivity|]. split; [discriminate|reflexivity].
Qed.

End ResolveFacts.

Lemma resolve_starts_with_metadata_example :
  exists c entries,
    env.creds scripted.resolver = Some c /\
    env.resolveEnvVars (RT := scripted.runtime)
      (secrets.NewClient (auth.AccessToken c) (config.ProjectID (env.config scripted.resolver)))
      (config.EnvironmentVars (env.config scripted.resolver)) []
      (scripted.acquired
         (scripted.answering [Done (mkResponse 200 (scripted.payloadBody "cXV4"))]))
    = ((entries, None),
       mkWorld scripted.runtime
         (fs (scripted.acquired scripted.quiet)) (environ (scripted.acquired scripted.quiet))
         scripted.quiet
         [mkRequest "GET"
            "https://secretmanager.googleapis.com/v1/projects/proj/secrets/s/versions/latest:access"
            "Bearer tok" EmptyString]) /\
    ["K_SERVICE=svc"; "K_REVISION=local"; "GOOGLE_CLOUD_PROJECT=proj";
     "GOOGLE_APPLICATION_CREDENTIALS=/tmp/cloudrun-local-creds-abcdefgh.json";
     "FOO=bar"; "BAZ=qux"]
    = (if nonempty (config.ServiceName (env.config scripted.resolver))
       then ["K_SERVICE=" +:+ config.ServiceName (env.config scripted.resolver)] else [])
      ++ ["K_REVISION=local";
          "GOOGLE_CLOUD_PROJECT=" +:+ config.ProjectID (env.config scripted.resolver);
          "GOOGLE_APPLICATION_CREDENTIALS=" +:+ auth.CredsFile c]
      ++ entries /\
    (head ["K_SERVICE=svc"; "K_REVISION=local"; "GOOGLE_CLOUD_PROJECT=proj";
           "GOOGLE_APPLICATION_CREDENTIALS=/tmp/cloudrun-local-creds-abcdefgh.json";
           "FOO=bar"; "BAZ=qux"]
     = Some ("K_SERVICE=" +:+ config.ServiceName (env.config scripted.resolver))
     <-> config.ServiceName (env.config scripted.resolver) <> EmptyString).
Proof.
  apply (resolve_starts_with_metadata (RT := scripted.runtime) scripted.resolver
           (scripted.acquired
              (scripted.answering [Done (mkResponse 200 (scripted.payloadBody "cXV4"))]))).
  vm_compute. reflexivity.
Defined.

Section ResolveDeclarations.
Context `{RT : Runtime}.

(** C2. When the declarations before one are resolved and the fetch of its
    secret fails, [Resolve] returns the nil list, no entry of the sequence
    built so far, and an error whose message names the secret of that
    declaration; nothing is fetched after the failure. *)
Theorem failed_fetch_aborts_resolution r c pre d ref post w out1 w1 v err w2 :
  env.creds r = Some c ->
  config.EnvironmentVars (env.config r) = pre ++ d :: post ->
  env.resolveEnvVars
    (secrets.NewClient (auth.AccessToken c) (config.ProjectID (env.config r)))
    pre (env.metadataVars (env.config r) c) w = ((out1, None), w1) ->
  config.EnvVar_Value d = EmptyString ->
  config.EnvVar_SecretRef d = Some ref ->
  secrets.AccessSecretVersion
    (secrets.NewClient (auth.AccessToken c) (config.ProjectID (env.config r)))
    (config.SecretRef_Name ref) (config.SecretRef_Key ref) w1 = ((v, Some err), w2) ->
  env.Resolve r w
  = Some (([], Some ("access secret " +:+ config.SecretRef_Name ref +:+ ": " +:+ err)), w2).
Proof.
  intros Hc Hvars Hpre Hval Href Hfetch.
  unfold env.Resolve. rewrite Hc, Hvars, resolveEnvVars_app, Hpre.
  simpl. rewrite Hval, Href, Hfetch. reflexivity.
Qed.

(** C4. A declaration with a non-empty literal value is parsed to a literal
    without secret reference, whatever secret reference the source carried,
    and [Resolve] appends exactly name=literal for it to what the
    declarations before it produced and goes on in the same world: it sends
    nothing. The loop does the same for a declaration that carries both a
    value and a secret reference. *)
Theorem literal_value_wins d :
  config.Raw_Value d <> EmptyString ->
  config.parseEnvVar d
  = config.mkEnvVar (config.Raw_Name d) (config.Raw_Value d) None /\
  (forall r c pre post w,
      env.creds r = Some c ->
      config.EnvironmentVars (env.config r) = config.parseEnvVars (pre ++ d :: post) ->
      env.Resolve r w
      = Some
          match env.resolveEnvVars
                  (secrets.NewClient (auth.AccessToken c) (config.ProjectID (env.config r)))
                  (config.parseEnvVars pre) (env.metadataVars (env.config r) c) w with
          | ((out, None), w1) =>
              env.resolveEnvVars
                (secrets.NewClient (auth.AccessToken c) (config.ProjectID (env.config r)))
                (config.parseEnvVars post)
                (out ++ [config.Raw_Name d +:+ "=" +:+ config.Raw_Value d]) w1
          | failure => failure
          end) /\
  (forall client ref rest result w,
      env.resolveEnvVars client
        (config.mkEnvVar (config.Raw_Name d) (config.Raw_Value d) (Some ref) :: rest) result w
      = env.resolveEnvVars client rest
          (result ++ [config.Raw_Name d +:+ "=" +:+ config.Raw_Value d]) w).
Proof.
  intros Hv. pose proof (parseEnvVar_literal d Hv) as Hparse.
  apply nonempty_true in Hv. split; [exact Hparse|]. split.
  - intros r c pre post w Hc Hvars. unfold env.Resolve.
    rewrite Hc, Hvars. change (pre ++ d :: post) with (pre ++ [d] ++ post).
    rewrite !parseEnvVars_app, resolveEnvVars_app. f_equal.
    destruct (env.resolveEnvVars _ (config.parseEnvVars pre) _ w) as [[out [err|]] w1];
      [reflexivity|].
    rewrite parseEnvVars_map. simpl. rewrite Hparse. simpl. now rewrite Hv.
  - intros client ref rest result w. simpl. now rewrite Hv.
Qed.

(** C7. A declaration without literal value whose secret coordinate lacks
    the name or the version label is skipped: [Resolve] returns what it
    returns for the descriptor without that declaration, the same entries or
    the same error, in the same world. *)
Theorem incomplete_declaration_is_skipped d name serviceAccount projectID c pre post w :
  config.Raw_Value d = EmptyString ->
  config.Raw_SecretKeyRef_Name d = EmptyString \/ config.Raw_SecretKeyRef_Key d = EmptyString ->
  env.Resolve
    (env.mkResolver
       (config.mkConfig name serviceAccount projectID (config.parseEnvVars (pre ++ d :: post)))
       c) w
  = env.Resolve
      (env.mkResolver
         (config.mkConfig name serviceAccount projectID (config.parseEnvVars (pre ++ post)))
         c) w.
Proof.
  intros Hv Hs. pose proof (parseEnvVar_incomplete d Hv Hs) as Hparse.
  unfold env.Resolve. simpl. destruct c as [c|]; [|reflexivity]. f_equal.
  change (pre ++ d :: post) with (pre ++ [d] ++ post).
  rewrite !parseEnvVars_app, !resolveEnvVars_app.
  unfold env.metadataVars. simpl.
  destruct (env.resolveEnvVars _ (config.parseEnvVars pre) _ w) as [[out [err|]] w1];
    [reflexivity|].
  rewrite Hparse. reflexivity.
Qed.

End ResolveDeclarations.

Lemma failed_fetch_aborts_resolution_example :
  env.Resolve (RT := scripted.runtime) scripted.resolver
    (scripted.acquired (scripted.answering [Done (mkResponse 403 "denied")]))
  = Some (([], Some "access secret s: expected 200 response status, received 403"),
          mkWorld scripted.runtime
            (fs (scripted.acquired scripted.quiet)) (environ (scripted.acquired scripted.quiet))
            scripted.quiet
            [mkRequest "GET"
               "https://secretmanager.googleapis.com/v1/projects/proj/secrets/s/versions/latest:access"
               "Bearer tok" EmptyString]).
Proof.
  eapply (failed_fetch_aborts_resolution (RT := scripted.runtime) scripted.resolver
            (auth.mkCredentials "tok" scripted.artifact)
            [config.mkEnvVar "FOO" "bar" None]
            (config.mkEnvVar "BAZ" EmptyString (Some (config.mkSecretRef "s" "latest")))
            (config.mkSecretRef "s" "latest") []
            (scripted.acquired (scripted.answering [Done (mkResponse 403 "denied")]))).
  - reflexivity.
  - reflexivity.
  - vm_compute. reflexivity.
  - reflexivity.
  - reflexivity.
  - vm_compute. reflexivity.
Defined.

Lemma literal_value_wins_example :
  config.parseEnvVar (config.mkRawEnv "FOO" "bar" "s" "latest")
  = config.mkEnvVar "FOO" "bar" None /\
  env.Resolve (RT := scripted.runtime)
    (env.mkResolver
       (config.mkConfig "svc" "sa@proj.iam.gserviceaccount.com" "proj"
          (config.parseEnvVars [config.mkRawEnv "FOO" "bar" "s" "latest"]))
       (Some (auth.mkCredentials "tok" scripted.artifact)))
    (scripted.acquired scripted.quiet)
  = Some ((["K_SERVICE=svc"; "K_REVISION=local"; "GOOGLE_CLOUD_PROJECT=proj";
            "GOOGLE_APPLICATION_CREDENTIALS=/tmp/cloudrun-local-creds-abcdefgh.json";
            "FOO=bar"], None),
          scripted.acquired scripted.quiet).
Proof.
  destruct (literal_value_wins (RT := scripted.runtime)
              (config.mkRawEnv "FOO" "bar" "s" "latest")) as (Hparse & Hresolve & _).
  - discriminate.
  - split; [exact Hparse|].
    rewrite (Hresolve
               (env.mkResolver
                  (config.mkConfig "svc" "sa@proj.iam.gserviceaccount.com" "proj"
                     (config.parseEnvVars [config.mkRawEnv "FOO" "bar" "s" "latest"]))
                  (Some (auth.mkCredentials "tok" scripted.artifact)))
               (auth.mkCredentials "tok" scripted.artifact) [] []
               (scripted.acquired scripted.quiet) eq_refl eq_refl).
    vm_compute. reflexivity.
Defined.

Lemma incomplete_declaration_is_skipped_example :
  env.Resolve (RT := scripted.runtime)
    (env.mkResolver
       (config.mkConfig "svc" "sa@proj.iam.gserviceaccount.com" "proj"
          (config.parseEnvVars
             ([config.mkRawEnv "FOO" "bar" EmptyString EmptyString]
              ++ config.mkRawEnv "HALF" EmptyString "s" EmptyString :: [])))
       (Some (auth.mkCredentials "tok" scripted.artifact)))
    (scripted.acquired scripted.quiet)
  = env.Resolve (RT := scripted.runtime)
      (env.mkResolver
         (config.mkConfig "svc" "sa@proj.iam.gserviceaccount.com" "proj"
            (config.parseEnvVars
               ([config.mkRawEnv "FOO" "bar" EmptyString EmptyString] ++ [])))
         (Some (auth.mkCredentials "tok" scripted.artifact)))
      (scripted.acquired scripted.quiet).
Proof.
  apply (incomplete_declaration_is_skipped (RT := scripted.runtime)
           (config.mkRawEnv "HALF" EmptyString "s" EmptyString)).
  - reflexivity.
  - right. reflexivity.
Defined.

(** ** Base64 round trip *)

Module base64_facts.
Import base64.

Ltac Zify.zify_post_hook ::= Z.to_euclidean_division_equations.

(** An or with bits that do not overlap is an addition. *)
Lemma lor_low_bits a b k :
  (a mod 2 ^ k = 0)%N -> (b < 2 ^ k)%N -> N.lor a b = (a + b)%N.
Proof.
  intros Ha Hb.
  assert (N.land a b = 0%N) as Hdisjoint; cycle 1.
  { rewrite <- (N.lxor_lor _ _ Hdisjoint). symmetry. now apply N.add_nocarry_lxor. }
  apply N.bits_inj. intros n. rewrite N.land_spec, N.bits_0.
  destruct (N.ltb_spec n k) as [Hlt|Hge].
  - rewrite <- (N.mod_pow2_bits_low a k n Hlt), Ha, N.bits_0. reflexivity.
  - assert (N.testbit b n = false) as ->; [|apply andb_false_r].
    destruct (N.eq_dec b 0%N) as [->|Hnz]; [apply N.bits_0|].
    apply N.bits_above_log2. apply N.log2_lt_pow2; [lia|].
    eapply N.lt_le_trans; [exact Hb|]. apply N.pow_le_mono_r; lia.
Qed.

Lemma shiftl_16 a : N.shiftl a 16 = (a * 65536)%N.
Proof. now rewrite N.shiftl_mul_pow2. Qed.

Lemma shiftl_8 a : N.shiftl a 8 = (a * 256)%N.
Proof. now rewrite N.shiftl_mul_pow2. Qed.

Lemma pack3 b0 b1 b2 :
  (b0 < 256)%N -> (b1 < 256)%N -> (b2 < 256)%N ->
  N.lor (N.lor (N.shiftl b0 16) (N.shiftl b1 8)) b2 = (b0 * 65536 + b1 * 256 + b2)%N.
Proof.
  intros H0 H1 H2. rewrite shiftl_16, shiftl_8.
  rewrite (lor_low_bits (b0 * 65536) (b1 * 256) 16);
    [|change (2 ^ 16)%N with 65536%N; lia ..].
  apply (lor_low_bits _ b2 8); change (2 ^ 8)%N with 256%N; lia.
Qed.

Lemma pack2 b0 b1 :
  (b0 < 256)%N -> (b1 < 256)%N ->
  N.lor (N.shiftl b0 16) (N.shiftl b1 8) = (b0 * 65536 + b1 * 256)%N.
Proof.
  intros H0 H1. rewrite shiftl_16, shiftl_8.
  apply (lor_low_bits _ _ 16); change (2 ^ 16)%N with 65536%N; lia.
Qed.

Lemma six_bits val k : N.land (N.shiftr val k) 63 = ((val / 2 ^ k) mod 64)%N.
Proof.
  rewrite N.shiftr_div_pow2. change 63%N with (N.ones 6).
  now rewrite N.land_ones.
Qed.

Lemma byte_of v : byte v = ascii_of_N (v mod 256).
Proof.
  unfold byte. change 255%N with (N.ones 8). now rewrite N.land_ones.
Qed.

Lemma quantum_sum d0 d1 d2 d3 :
  (d0 < 64)%N -> (d1 < 64)%N -> (d2 < 64)%N -> (d3 < 64)%N ->
  quantum d0 d1 d2 d3 = (d0 * 262144 + d1 * 4096 + d2 * 64 + d3)%N.
Proof.
  intros H0 H1 H2 H3. unfold quantum. rewrite !N.shiftl_mul_pow2.
  change (2 ^ 18)%N with 262144%N. change (2 ^ 12)%N with 4096%N.
  change (2 ^ 6)%N with 64%N.
  rewrite (lor_low_bits (d0 * 262144) (d1 * 4096) 18);
    [|change (2 ^ 18)%N with 262144%N; lia ..].
  rewrite (lor_low_bits _ (d2 * 64) 12); [|change (2 ^ 12)%N with 4096%N; lia ..].
  apply (lor_low_bits _ d3 6); change (2 ^ 6)%N with 64%N; lia.
Qed.

(** The four sextets of a 24-bit value give it back. *)
Lemma regroup val :
  (val < 16777216)%N ->
  quantum (N.land (N.shiftr val 18) 63) (N.land (N.shiftr val 12) 63)
          (N.land (N.shiftr val 6) 63) (N.land (N.shiftr val 0) 63) = val.
Proof.
  intros Hval. rewrite !six_bits.
  change (2 ^ 18)%N with 262144%N. change (2 ^ 12)%N with 4096%N.
  change (2 ^ 6)%N with 64%N. change (2 ^ 0)%N with 1%N.
  rewrite quantum_sum by (apply N.mod_upper_bound; discriminate).
  lia.
Qed.

Lemma regroup3 val :
  (val < 16777216)%N -> (val mod 64 = 0)%N ->
  quantum (N.land (N.shiftr val 18) 63) (N.land (N.shiftr val 12) 63)
          (N.land (N.shiftr val 6) 63) 0 = val.
Proof.
  intros Hval Hlow. rewrite <- (regroup val Hval) at 4. f_equal.
  rewrite six_bits. change (2 ^ 0)%N with 1%N. lia.
Qed.

Lemma regroup2 val :
  (val < 16777216)%N -> (val mod 4096 = 0)%N ->
  quantum (N.land (N.shiftr val 18) 63) (N.land (N.shiftr val 12) 63) 0 0 = val.
Proof.
  intros Hval Hlow. rewrite <- (regroup val Hval) at 3. f_equal.
  - rewrite six_bits. change (2 ^ 6)%N with 64%N. lia.
  - rewrite six_bits. change (2 ^ 0)%N with 1%N. lia.
Qed.

(** The three bytes of a packed value. *)
Lemma unpack c0 c1 c2 :
  let val := (N_of_ascii c0 * 65536 + N_of_ascii c1 * 256 + N_of_ascii c2)%N in
  byte (N.shiftr val 16) = c0 /\ byte (N.shiftr val 8) = c1 /\ byte val = c2.
Proof.
  intros val. pose proof (N_ascii_bounded c0). pose proof (N_ascii_bounded c1).
  pose proof (N_ascii_bounded c2).
  rewrite !byte_of, !N.shiftr_div_pow2.
  change (2 ^ 16)%N with 65536%N. change (2 ^ 8)%N with 256%N.
  replace ((val / 65536) mod 256)%N with (N_of_ascii c0) by (subst val; lia).
  replace ((val / 256) mod 256)%N with (N_of_ascii c1) by (subst val; lia).
  replace (val mod 256)%N with (N_of_ascii c2) by (subst val; lia).
  now rewrite !ascii_N_embedding.
Qed.

(** The alphabet and the decoding table are inverse on sextets. *)
Lemma decodeMap_encode v : (v < 64)%N -> decodeMap (encode v) = v.
Proof.
  intros Hv.
  assert (forallb (fun n => (decodeMap (encode (N.of_nat n)) =? N.of_nat n)%N) (seq 0 64)
          = true) as Hall by (vm_compute; reflexivity).
  rewrite forallb_forall in Hall.
  specialize (Hall (N.to_nat v)). rewrite N2Nat.id in Hall.
  apply N.eqb_eq, Hall, in_seq. lia.
Qed.

Lemma decode_String c rest si dbuf :
  decode (String c rest) si dbuf
  = let si := (si + 1)%N in
    let out := decodeMap c in
    if negb (out =? 255)%N then
      match dbuf with
      | [d0; d1; d2] =>
          let val := quantum d0 d1 d2 out in
          match decode rest si [] with
          | inl tail =>
              inl (String (byte (N.shiftr val 16)) (String (byte (N.shiftr val 8))
                    (String (byte val) tail)))
          | inr off => inr off
          end
      | _ => decode rest si (dbuf ++ [out])
      end
    else if isNewline c then decode rest si dbuf
    else if negb (Ascii.eqb c padChar) then inr (si - 1)%N
    else
      match dbuf with
      | [d0; d1] =>
          let val := quantum d0 d1 0 0 in
          let '(rest1, si1) := skipNewlines rest si in
          match rest1 with
          | EmptyString => inr si1
          | String c' rest2 =>
              if negb (Ascii.eqb c' padChar) then inr (si1 - 1)%N
              else
                let '(rest3, si3) := skipNewlines rest2 (si1 + 1) in
                match rest3 with
                | EmptyString => inl (String (byte (N.shiftr val 16)) EmptyString)
                | _ => inr si3
                end
          end
      | [d0; d1; d2] =>
          let val := quantum d0 d1 d2 0 in
          let '(rest1, si1) := skipNewlines rest si in
          match rest1 with
          | EmptyString =>
              inl (String (byte (N.shiftr val 16))
                    (String (byte (N.shiftr val 8)) EmptyString))
          | _ => inr si1
          end
      | _ => inr (si - 1)%N
      end.
Proof. reflexivity. Qed.

(** Reading the character of a sextet appends the sextet to the quantum. *)
Lemma decode_sextet val k rest si dbuf :
  decode (String (sextet val k) rest) si dbuf
  = match dbuf with
    | [d0; d1; d2] =>
        let q := quantum d0 d1 d2 (N.land (N.shiftr val k) 63) in
        match decode rest (si + 1) [] with
        | inl tail =>
            inl (String (byte (N.shiftr q 16)) (String (byte (N.shiftr q 8))
                  (String (byte q) tail)))
        | inr off => inr off
        end
    | _ => decode rest (si + 1) (dbuf ++ [N.land (N.shiftr val k) 63])
    end.
Proof.
  assert (N.land (N.shiftr val k) 63 < 64)%N as Hlt.
  { rewrite six_bits. apply N.mod_upper_bound. discriminate. }
  rewrite decode_String. unfold sextet. cbv zeta.
  rewrite (decodeMap_encode _ Hlt).
  destruct (N.eqb_spec (N.land (N.shiftr val k) 63) 255) as [Heq|_]; [lia|].
  reflexivity.
Qed.

Lemma decode_two_padding si d0 d1 :
  decode (String padChar (String padChar EmptyString)) si [d0; d1]
  = inl (String (byte (N.shiftr (quantum d0 d1 0 0) 16)) EmptyString).
Proof. reflexivity. Qed.

Lemma decode_one_padding si d0 d1 d2 :
  decode (String padChar EmptyString) si [d0; d1; d2]
  = inl (String (byte (N.shiftr (quantum d0 d1 d2 0) 16))
          (String (byte (N.shiftr (quantum d0 d1 d2 0) 8)) EmptyString)).
Proof. reflexivity. Qed.

Lemma packed_bound b0 b1 b2 :
  (b0 < 256)%N -> (b1 < 256)%N -> (b2 < 256)%N ->
  (b0 * 65536 + b1 * 256 + b2 < 16777216)%N.
Proof. lia. Qed.

(** Decoding the encoding of one, two and three bytes. *)
Lemma decode_one c0 si :
  decode (EncodeToString (String c0 EmptyString)) si [] = inl (String c0 EmptyString).
Proof.
  pose proof (N_ascii_bounded c0) as H0.
  cbn [EncodeToString]. cbv zeta.
  rewrite !decode_sextet. cbn [app]. rewrite decode_two_padding.
  rewrite regroup2, shiftl_16 by (rewrite shiftl_16; lia).
  destruct (unpack c0 "000" "000") as (Hb & _ & _). cbv zeta in Hb.
  change (N_of_ascii "000") with 0%N in Hb.
  rewrite N.mul_0_l, !N.add_0_r in Hb. now rewrite Hb.
Qed.

Lemma decode_two c0 c1 si :
  decode (EncodeToString (String c0 (String c1 EmptyString))) si []
  = inl (String c0 (String c1 EmptyString)).
Proof.
  pose proof (N_ascii_bounded c0) as H0. pose proof (N_ascii_bounded c1) as H1.
  cbn [EncodeToString]. cbv zeta.
  rewrite !decode_sextet. cbn [app]. rewrite decode_one_padding.
  rewrite pack2 by assumption. rewrite regroup3 by lia.
  destruct (unpack c0 c1 "000") as (Hb0 & Hb1 & _). cbv zeta in Hb0, Hb1.
  change (N_of_ascii "000") with 0%N in Hb0, Hb1.
  rewrite !N.add_0_r in Hb0, Hb1. now rewrite Hb0, Hb1.
Qed.

Lemma decode_three c0 c1 c2 rest si :
  decode (EncodeToString (String c0 (String c1 (String c2 rest)))) si []
  = match decode (EncodeToString rest) (si + 1 + 1 + 1 + 1) [] with
    | inl tail => inl (String c0 (String c1 (String c2 tail)))
    | inr off => inr off
    end.
Proof.
  pose proof (N_ascii_bounded c0) as H0. pose proof (N_ascii_bounded c1) as H1.
  pose proof (N_ascii_bounded c2) as H2.
  cbn [EncodeToString]. cbv zeta.
  rewrite !decode_sextet. cbn [app]. cbv zeta.
  rewrite pack3 by assumption. rewrite regroup by now apply packed_bound.
  destruct (unpack c0 c1 c2) as (Hb0 & Hb1 & Hb2). cbv zeta in Hb0, Hb1, Hb2.
  now rewrite Hb0, Hb1, Hb2.
Qed.

(** Round trip of the decoding loop, at every offset. *)
Lemma decode_EncodeToString src :
  (forall si, decode (EncodeToString src) si [] = inl src) /\
  (forall c si, decode (EncodeToString (String c src)) si [] = inl (String c src)) /\
  (forall c c' si,
      decode (EncodeToString (String c (String c' src))) si []
      = inl (String c (String c' src))).
Proof.
  induction src as [|a src (IH0 & IH1 & IH2)].
  - split; [reflexivity|]. split; intros; [apply decode_one | apply decode_two].
  - split; [intros si; apply IH1|]. split; [intros c si; apply IH2|].
    intros c c' si. rewrite decode_three, IH0. reflexivity.
Qed.

Lemma DecodeString_EncodeToString src :
  DecodeString (EncodeToString src) = (src, None).
Proof.
  unfold DecodeString. now rewrite (proj1 (decode_EncodeToString src)).
Qed.

Lemma EncodeToString_nonempty src :
  nonempty (EncodeToString src) = nonempty src.
Proof. destruct src as [|c0 [|c1 [|c2 rest]]]; reflexivity. Qed.

End base64_facts.

Section SecretFetch.
Context `{RT : Runtime}.

(** C6. When the request is sent and the endpoint answers with status 200,
    a payload field holding the standard base64 encoding of a non-empty
    byte sequence makes [AccessSecretVersion] return exactly these bytes, and
    an empty payload field makes it fail with an error instead of returning
    an empty value. *)
Theorem fetch_returns_decoded_payload c secretName version w resp w' :
  http_NewRequest "GET"
    ("https://secretmanager.googleapis.com/v1/"
     +:+ secrets.secretPath c secretName version +:+ ":access") = None ->
  http_DefaultClient_Do
    (mkRequest "GET"
       ("https://secretmanager.googleapis.com/v1/"
        +:+ secrets.secretPath c secretName version +:+ ":access")
       ("Bearer " +:+ secrets.accessToken c) EmptyString) w = (Done resp, w') ->
  StatusCode resp = 200%Z ->
  (forall B,
      B <> EmptyString ->
      json_Decode_payload_data (Body resp) = Done (base64.EncodeToString B) ->
      secrets.AccessSecretVersion c secretName version w = ((B, None), w')) /\
  (json_Decode_payload_data (Body resp) = Done EmptyString ->
   secrets.AccessSecretVersion c secretName version w
   = ((EmptyString,
       Some ("no value for secret " +:+ secrets.secretPath c secretName version)), w')).
Proof.
  intros Hreq Hdo Hstatus. unfold secrets.AccessSecretVersion. cbv zeta.
  rewrite Hreq, Hdo, Hstatus. cbn [Z.ltb Z.compare Pos.compare Pos.compare_cont orb].
  split.
  - intros B HB Hdata. rewrite Hdata.
    rewrite base64_facts.EncodeToString_nonempty.
    apply nonempty_true in HB. rewrite HB. cbn [negb].
    now rewrite base64_facts.DecodeString_EncodeToString.
  - intros Hdata. rewrite Hdata. reflexivity.
Qed.

End SecretFetch.

Lemma fetch_returns_decoded_payload_example :
  secrets.AccessSecretVersion (RT := scripted.runtime)
    (secrets.NewClient "tok" "proj") "s" "latest"
    (scripted.acquired
       (scripted.answering [Done (mkResponse 200 (scripted.payloadBody "cXV4"))]))
  = (("qux", None),
     mkWorld scripted.runtime
       (fs (scripted.acquired scripted.quiet)) (environ (scripted.acquired scripted.quiet))
       scripted.quiet
       [mkRequest "GET"
          "https://secretmanager.googleapis.com/v1/projects/proj/secrets/s/versions/latest:access"
          "Bearer tok" EmptyString]) /\
  secrets.AccessSecretVersion (RT := scripted.runtime)
    (secrets.NewClient "tok" "proj") "s" "latest"
    (scripted.acquired
       (scripted.answering [Done (mkResponse 200 (scripted.payloadBody EmptyString))]))
  = ((EmptyString, Some "no value for secret projects/proj/secrets/s/versions/latest"),
     mkWorld scripted.runtime
       (fs (scripted.acquired scripted.quiet)) (environ (scripted.acquired scripted.quiet))
       scripted.quiet
       [mkRequest "GET"
          "https://secretmanager.googleapis.com/v1/projects/proj/secrets/s/versions/latest:access"
          "Bearer tok" EmptyString]).
Proof.
  split.
  - refine (proj1 (fetch_returns_decoded_payload (RT := scripted.runtime)
                     (secrets.NewClient "tok" "proj") "s" "latest"
                     (scripted.acquired
                        (scripted.answering
                           [Done (mkResponse 200 (scripted.payloadBody "cXV4"))]))
                     (mkResponse 200 (scripted.payloadBody "cXV4")) _ _ _ _) "qux" _ _).
    + reflexivity.
    + vm_compute. reflexivity.
    + reflexivity.
    + discriminate.
    + reflexivity.
  - refine (proj2 (fetch_returns_decoded_payload (RT := scripted.runtime)
                     (secrets.NewClient "tok" "proj") "s" "latest"
                     (scripted.acquired
                        (scripted.answering
                           [Done (mkResponse 200 (scripted.payloadBody EmptyString))]))
                     (mkResponse 200 (scripted.payloadBody EmptyString)) _ _ _ _) _).
    + reflexivity.
    + vm_compute. reflexivity.
    + reflexivity.
    + reflexivity.
Defined.

(** ** Releasing the credential *)

Section CleanupFacts.
Context `{RT : Runtime}.


End CleanupFacts.



(** ** Acquiring the credential *)

Section AcquireFacts.
Context `{RT : Runtime}.

Ltac split_match :=
  match goal with
  | |- context [match ?x with _ => _ end] => destruct x eqn:?
  end.


Lemma http_DefaultClient_Do_preserves req w r w' :
  http_DefaultClient_Do req w = (r, w') ->
  fs w' = fs w /\ environ w' = environ w /\ sent w' = sent w ++ [req].
Proof.
  unfold http_DefaultClient_Do. destruct (http_Do req (ext w)) as [r0 e].
  intros [= <- <-]. repeat split; reflexivity.
Qed.

(** The token exchange touches neither the file system nor the process
    environment. *)
Lemma fetchImpersonatedAccessToken_preserves target w r w' :
  auth.fetchImpersonatedAccessToken target w = (r, w') ->
  fs w' = fs w /\ environ w' = environ w.
Proof.
  unfold auth.fetchImpersonatedAccessToken. cbv zeta.
  repeat split_match; intros [= <- <-];
    try match goal with
        | H : http_DefaultClient_Do _ _ = _ |- _ =>
            apply http_DefaultClient_Do_preserves in H; destruct H as (-> & -> & _)
        end;
    split; reflexivity.
Qed.

Lemma randomLower_spec n w s w' :
  auth.randomLower n w = (s, w') ->
  String.length s = n /\ spec.all_lowercase s /\
  fs w' = fs w /\ environ w' = environ w /\ sent w' = sent w.
Proof.
  revert w s w'. induction n as [|n IH]; intros w s w'; simpl.
  - intros [= <- <-]. repeat split; reflexivity.
  - unfold rand_IntN. destruct (rand_Uint64 (ext w)) as [raw e].
    destruct (auth.randomLower n (with_ext w e)) as [b w2] eqn:Hrec.
    intros [= <- <-]. destruct (IH _ _ _ Hrec) as (Hlen & Hlow & Hfs & Henv & Hsent).
    simpl. repeat split; try assumption.
    + now rewrite Hlen.
    + rewrite N_ascii_embedding; lia.
    + rewrite N_ascii_embedding; lia.
Qed.


Lemma createDelegatedCredsFile_writes adc target w path w' :
  auth.createDelegatedCredsFile adc target w = ((path, None), w') ->
  exists content suffix,
    auth.json_Marshal_delegateCreds
      (auth.mkDelegateCreds ["projects/-/serviceAccounts/" +:+ target]
         "impersonated_service_account" (auth.impersonationURL target) adc) = Done content /\
    String.length suffix = 8 /\ spec.all_lowercase suffix /\
    path = filepath_Join [os_TempDir w; "cloudrun-local-creds-" +:+ suffix +:+ ".json"] /\
    fs w' = <[path := mkFile (match fs w !! path with Some f => perm f | None => 384%N end)
                             content]> (fs w).
Proof.
  unfold auth.createDelegatedCredsFile. cbv zeta.
  destruct (auth.json_Marshal_delegateCreds _) as [content|err] eqn:Hjson; [|discriminate].
  destruct (auth.randomLower 8 w) as [suffix w1] eqn:Hrand.
  destruct (randomLower_spec _ _ _ _ Hrand) as (Hlen & Hlow & Hfs & Henv & _).
  unfold os_WriteFile.
  destruct (os_WriteFile_fault _ (ext w1)) as [[[errno | n errno]|] e]; cbv zeta;
    [discriminate | discriminate |].
  intros [= <- <-]. exists content, suffix.
  cbn [fs with_fs with_ext]. rewrite Hfs. repeat split; assumption || reflexivity.
Qed.

(** A failed [createDelegatedCredsFile] returns no path; it leaves the file
    system as it was, unless the write failed in the middle, which leaves a
    file with the part that was written. *)
Lemma createDelegatedCredsFile_fails adc target w path err w' :
  auth.createDelegatedCredsFile adc target w = ((path, Some err), w') ->
  path = EmptyString /\
  (fs w' = fs w \/
   exists name content n errno,
     err = PathError_Error (mkPathError "write" name errno) /\
     fs w' = <[name := mkFile (match fs w !! name with Some f => perm f | None => 384%N end)
                              (substring 0 n content)]> (fs w)).
Proof.
  unfold auth.createDelegatedCredsFile. cbv zeta.
  destruct (auth.json_Marshal_delegateCreds _) as [content|e0] eqn:Hjson;
    [|intros [= <- <- <-]; split; [reflexivity | left; reflexivity]].
  destruct (auth.randomLower 8 w) as [suffix w1] eqn:Hrand.
  destruct (randomLower_spec _ _ _ _ Hrand) as (Hlen & Hlow & Hfs & Henv & _).
  unfold os_WriteFile.
  destruct (os_WriteFile_fault _ (ext w1)) as [[[errno | n errno]|] e]; cbv zeta;
    [| |discriminate]; intros [= <- <- <-]; (split; [reflexivity|]).
  - left. exact Hfs.
  - right. eexists _, content, n, errno. split; [reflexivity|].
    cbn [fs with_fs with_ext]. now rewrite Hfs.
Qed.


(** What a failed acquisition leaves behind. When
    [GetImpersonatedCredentials] returns an
    error it returns no credential, hence no path. If the standing
    credentials are missing nothing has happened at all; if the token
    exchange failed the file system is as it was; if creating the artifact
    failed the file system is as it was, unless the write failed in the
    middle: then the only change is a file holding the part of the document
    that was written. *)
Lemma failed_acquire_leaves_no_credential target w c err w' :
  auth.GetImpersonatedCredentials target w = ((c, Some err), w') ->
  c = None /\
  ((snd (auth.applicationDefaultCredentials w) = Some err /\ w' = w) \/
   (exists adc v e,
       auth.applicationDefaultCredentials w = (adc, None) /\
       auth.fetchImpersonatedAccessToken target w = ((v, Some e), w') /\
       err = "fetch impersonated access token: " +:+ e /\
       fs w' = fs w) \/
   (exists adc tok w1 e,
       auth.applicationDefaultCredentials w = (adc, None) /\
       auth.fetchImpersonatedAccessToken target w = ((tok, None), w1) /\
       auth.createDelegatedCredsFile adc target w1 = ((EmptyString, Some e), w') /\
       err = "create credentials file: " +:+ e /\
       (fs w' = fs w \/
        exists name content n errno,
          e = PathError_Error (mkPathError "write" name errno) /\
          fs w'
          = <[name := mkFile (match fs w !! name with Some f => perm f | None => 384%N end)
                             (substring 0 n content)]> (fs w)))).
Proof.
  unfold auth.GetImpersonatedCredentials.
  destruct (auth.applicationDefaultCredentials w) as [adc [e|]].
  { intros [= <- <- <-]. split; [reflexivity|]. left. split; reflexivity. }
  destruct (auth.fetchImpersonatedAccessToken target w) as [[tok [e|]] w1] eqn:Hfetch.
  { intros [= <- <- <-]. split; [reflexivity|]. right. left.
    exists adc, tok, e. do 3 (split; [reflexivity|]).
    apply (fetchImpersonatedAccessToken_preserves _ _ _ _ Hfetch). }
  destruct (fetchImpersonatedAccessToken_preserves _ _ _ _ Hfetch) as [Hfs Henv].
  destruct (auth.createDelegatedCredsFile adc target w1) as [[path [e|]] w2] eqn:Hcreate;
    [|discriminate].
  intros [= <- <- <-]. split; [reflexivity|]. right. right.
  destruct (createDelegatedCredsFile_fails _ _ _ _ _ _ Hcreate) as [-> Hdisk].
  exists adc, tok, w1, e. do 2 (split; [reflexivity|]).
  split; [exact Hcreate|]. split; [reflexivity|].
  rewrite <- Hfs. exact Hdisk.
Qed.

(** C10. Of the two tokens only the one of the caller is checked for
    emptiness. An empty caller token is an error. With a caller token, a
    token exchange that answers with status 200 and a body whose accessToken
    field is missing or empty makes [fetchImpersonatedAccessToken] succeed
    with the empty token, and [GetImpersonatedCredentials], once the artifact
    is written, succeed with a credential whose access token is empty. *)
Theorem empty_impersonated_token_is_accepted target w creds e1 tok e2 :
  google_FindDefaultCredentials auth.cloudPlatformScope (ext w) = (Done creds, e1) ->
  TokenSource_Token creds e1 = (Done tok, e2) ->
  (tok = EmptyString ->
   auth.fetchImpersonatedAccessToken target w
   = ((EmptyString, Some "got empty access token"), with_ext (with_ext w e1) e2)) /\
  (forall resp w2,
      tok <> EmptyString ->
      http_NewRequest "POST" (auth.impersonationURL target) = None ->
      http_DefaultClient_Do
        (mkRequest "POST" (auth.impersonationURL target) ("Bearer " +:+ tok)
           (auth.json_Marshal_request ["projects/-/serviceAccounts/" +:+ target]
              [auth.cloudPlatformScope]))
        (with_ext (with_ext w e1) e2) = (Done resp, w2) ->
      StatusCode resp = 200%Z ->
      json_Decode_accessToken (Body resp) = Done EmptyString ->
      auth.fetchImpersonatedAccessToken target w = ((EmptyString, None), w2) /\
      (forall adc path w3,
          auth.applicationDefaultCredentials w = (adc, None) ->
          auth.createDelegatedCredsFile adc target w2 = ((path, None), w3) ->
          auth.GetImpersonatedCredentials target w
          = ((Some (auth.mkCredentials EmptyString path), None), w3))).
Proof.
  intros Hfind Htoken.
  assert (forall resp w2,
             tok <> EmptyString ->
             http_NewRequest "POST" (auth.impersonationURL target) = None ->
             http_DefaultClient_Do
               (mkRequest "POST" (auth.impersonationURL target) ("Bearer " +:+ tok)
                  (auth.json_Marshal_request ["projects/-/serviceAccounts/" +:+ target]
                     [auth.cloudPlatformScope]))
               (with_ext (with_ext w e1) e2) = (Done resp, w2) ->
             StatusCode resp = 200%Z ->
             json_Decode_accessToken (Body resp) = Done EmptyString ->
             auth.fetchImpersonatedAccessToken target w = ((EmptyString, None), w2))
    as Hfetch.
  { intros resp w2 Htok Hreq Hdo Hstatus Hbody. apply nonempty_true in Htok.
    unfold auth.fetchImpersonatedAccessToken. cbv zeta.
    rewrite Hfind. cbn [ext with_ext]. rewrite Htoken, Htok. cbn [negb].
    rewrite Hreq, Hdo, Hstatus, Hbody. reflexivity. }
  split.
  - intros ->. unfold auth.fetchImpersonatedAccessToken. cbv zeta.
    rewrite Hfind. cbn [ext with_ext]. rewrite Htoken. reflexivity.
  - intros resp w2 Htok Hreq Hdo Hstatus Hbody.
    split; [exact (Hfetch resp w2 Htok Hreq Hdo Hstatus Hbody)|].
    intros adc path w3 Hadc Hcreate. unfold auth.GetImpersonatedCredentials.
    rewrite Hadc, (Hfetch resp w2 Htok Hreq Hdo Hstatus Hbody), Hcreate. reflexivity.
Qed.

End AcquireFacts.


Lemma failed_acquire_leaves_no_credential_example :
  exists c err w',
    auth.GetImpersonatedCredentials (RT := scripted.runtime) "sa@proj.iam.gserviceaccount.com"
      (scripted.workstation (scripted.answering [Done (mkResponse 403 "denied")]))
    = ((c, Some err), w') /\
    c = None.
Proof.
  assert (exists c err w',
             auth.GetImpersonatedCredentials (RT := scripted.runtime)
               "sa@proj.iam.gserviceaccount.com"
               (scripted.workstation (scripted.answering [Done (mkResponse 403 "denied")]))
             = ((c, Some err), w')) as (c & err & w' & Hacquire).
  { eexists _, _, _. vm_compute. reflexivity. }
  exists c, err, w'. split; [exact Hacquire|].
  exact (proj1 (failed_acquire_leaves_no_credential (RT := scripted.runtime) _ _ _ _ _ Hacquire)).
Defined.

(** C9 fails on the code. On a workstation whose disk fills up while the
    artifact is written, [GetImpersonatedCredentials] returns an error and no
    credential, and the artifact file, which did not exist before, is on disk
    afterwards with the first byte of the document: nothing removes it. *)
Theorem failed_write_leaves_partial_artifact :
  fst (auth.GetImpersonatedCredentials (RT := scripted.runtime)
         "sa@proj.iam.gserviceaccount.com" scripted.diskFull)
  = (None,
     Some "create credentials file: write /tmp/cloudrun-local-creds-hcfihgfs.json: no space left on device") /\
  fs scripted.diskFull !! "/tmp/cloudrun-local-creds-hcfihgfs.json" = None /\
  fs (snd (auth.GetImpersonatedCredentials (RT := scripted.runtime)
             "sa@proj.iam.gserviceaccount.com" scripted.diskFull))
    !! "/tmp/cloudrun-local-creds-hcfihgfs.json"
  = Some (mkFile 384 "{").
Proof. vm_compute. repeat split. Qed.

Lemma empty_impersonated_token_is_accepted_example :
  exists w3,
    auth.GetImpersonatedCredentials (RT := scripted.runtime) "sa@proj.iam.gserviceaccount.com"
      (scripted.workstation (scripted.answering [Done (mkResponse 200 "{}")]))
    = ((Some (auth.mkCredentials EmptyString "/tmp/cloudrun-local-creds-hcfihgfs.json"), None),
       w3).
Proof.
  destruct (empty_impersonated_token_is_accepted (RT := scripted.runtime)
              "sa@proj.iam.gserviceaccount.com"
              (scripted.workstation (scripted.answering [Done (mkResponse 200 "{}")]))
              tt (scripted.answering [Done (mkResponse 200 "{}")])
              "caller-token" (scripted.answering [Done (mkResponse 200 "{}")])
              eq_refl eq_refl) as [_ Hexchange].
  edestruct (Hexchange (mkResponse 200 "{}")) as [_ Hacquire].
  - discriminate.
  - reflexivity.
  - vm_compute. reflexivity.
  - reflexivity.
  - reflexivity.
  - eexists. apply (Hacquire scripted.adcJSON).
    + vm_compute. reflexivity.
    + vm_compute. reflexivity.
Defined.

(** * Further properties of the code *)

(** ** Package config *)

Lemma before_after s c :
  spec.count c s <> 0 -> s = spec.before c s +:+ String c (spec.after c s).
Proof.
  induction s as [|a s IH]; simpl; [congruence|].
  destruct (Ascii.eqb_spec a c) as [->|Hne]; simpl; [reflexivity|].
  intros Hc.
  change (String a s = String a (spec.before c s +:+ String c (spec.after c s))).
  f_equal. now apply IH.
Qed.

Lemma append_empty_r s : s +:+ EmptyString = s.
Proof.
  induction s as [|a s IH]; [reflexivity|].
  change (String a (s +:+ EmptyString) = String a s). now rewrite IH.
Qed.

Lemma before_after_absent s c :
  spec.count c s = 0 -> spec.after c s = EmptyString.
Proof.
  induction s as [|a s IH]; simpl; [reflexivity|].
  destruct (Ascii.eqb a c); simpl; [discriminate|assumption].
Qed.

Lemma count_before_same s c : spec.count c (spec.before c s) = 0.
Proof.
  induction s as [|a s IH]; simpl; [reflexivity|].
  destruct (Ascii.eqb a c) eqn:Hac; simpl; [reflexivity|]. now rewrite Hac.
Qed.

Lemma count_before_le s c c' : spec.count c' (spec.before c s) <= spec.count c' s.
Proof.
  induction s as [|a s IH]; simpl; [lia|].
  destruct (Ascii.eqb a c); simpl; lia.
Qed.

Lemma count_after s c :
  spec.count c s = spec.count c (spec.after c s) + (if spec.count c s =? 0 then 0 else 1).
Proof.
  induction s as [|a s IH]; simpl; [reflexivity|].
  destruct (Ascii.eqb a c); simpl; [lia|]. exact IH.
Qed.

(** X1. The outcome of [extractProjectID] is decided by the number of at
    signs and by the first label of the domain: not exactly one at sign is
    the format error, an empty first label (an empty domain, or one that
    starts with a dot) is the could-not-extract error, and otherwise the
    first label is returned. The error about an invalid domain is never
    returned. *)
Theorem extractProjectID_outcomes sa :
  config.extractProjectID sa
  = (if negb (spec.count "@" sa =? 1) then
       (EmptyString, Some ("invalid service account format: " +:+ sa))
     else if nonempty (spec.firstLabel (spec.domain sa)) then
       (spec.firstLabel (spec.domain sa), None)
     else
       (EmptyString,
        Some ("could not extract project ID from service account: " +:+ sa))) /\
  (forall d,
      snd (config.extractProjectID sa) <> Some ("invalid service account domain: " +:+ d)).
Proof.
  assert (config.extractProjectID sa
          = (if negb (spec.count "@" sa =? 1) then
               (EmptyString, Some ("invalid service account format: " +:+ sa))
             else if nonempty (spec.firstLabel (spec.domain sa)) then
               (spec.firstLabel (spec.domain sa), None)
             else
               (EmptyString,
                Some ("could not extract project ID from service account: " +:+ sa))))
    as Heq.
  { unfold config.extractProjectID. rewrite !Split_length.
    change (S (spec.count "@" sa) =? 2) with (spec.count "@" sa =? 1).
    destruct (Nat.eqb_spec (spec.count "@" sa) 1) as [Hone|Hne]; simpl; [|reflexivity].
    rewrite Split_first, Split_second by exact Hone. reflexivity. }
  split; [exact Heq|].
  intros d. rewrite Heq.
  destruct (negb _); [simpl; intros H; vm_compute in H; congruence|].
  destruct (nonempty _); simpl; intros H; vm_compute in H; congruence.
Qed.

(** X2. An accepted identity reads local part, at sign, project id, rest:
    the local part and the project id hold no at sign, the project id holds
    no dot and is not empty, and the rest is empty or starts with a dot. *)
Theorem extractProjectID_decomposes sa pid :
  config.extractProjectID sa = (pid, None) ->
  exists localPart rest,
    sa = localPart +:+ "@" +:+ pid +:+ rest /\
    spec.count "@" localPart = 0 /\
    spec.count "@" pid = 0 /\ spec.count "." pid = 0 /\ pid <> EmptyString /\
    (rest = EmptyString \/ exists r, rest = String "." r).
Proof.
  intros Hx. destruct (extractProjectID_accepts _ _ Hx) as (Hone & Hpid & Hne).
  unfold spec.firstLabel, spec.domain in Hpid.
  exists (spec.before "@" sa),
    (if spec.count "." (spec.after "@" sa) =? 0 then EmptyString
     else String "." (spec.after "." (spec.after "@" sa))).
  assert (spec.count "@" (spec.after "@" sa) = 0) as Hdom.
  { pose proof (count_after sa "@") as Hc. rewrite Hone in Hc. simpl in Hc. lia. }
  split; [|split; [|split; [|split; [|split]]]].
  - rewrite (before_after sa "@") at 1 by lia. f_equal. simpl. f_equal.
    rewrite Hpid.
    destruct (Nat.eqb_spec (spec.count "." (spec.after "@" sa)) 0) as [Hz|Hnz].
    + rewrite (before_absent _ _ Hz). now rewrite append_empty_r.
    + now apply before_after.
  - apply count_before_same.
  - rewrite Hpid. pose proof (count_before_le (spec.after "@" sa) "." "@"). lia.
  - rewrite Hpid. apply count_before_same.
  - exact Hne.
  - destruct (_ =? 0); [left; reflexivity | right; eauto].
Qed.

Lemma extractProjectID_decomposes_example :
  exists localPart rest,
    "sa@proj.iam.gserviceaccount.com" = localPart +:+ "@" +:+ "proj" +:+ rest /\
    spec.count "@" localPart = 0 /\
    spec.count "@" "proj" = 0 /\ spec.count "." "proj" = 0 /\ "proj" <> EmptyString /\
    (rest = EmptyString \/ exists r, rest = String "." r).
Proof.
  apply (extractProjectID_decomposes "sa@proj.iam.gserviceaccount.com" "proj").
  reflexivity.
Defined.

(** X3. [parseEnvVars] returns one declaration per entry of the container,
    in the order of the entries and under their names. *)
Theorem parseEnvVars_keeps_names envArray :
  length (config.parseEnvVars envArray) = length envArray /\
  map config.EnvVar_Name (config.parseEnvVars envArray) = map config.Raw_Name envArray.
Proof.
  rewrite parseEnvVars_map. split; [apply length_map|].
  rewrite map_map. apply map_ext. intros d. unfold config.parseEnvVar.
  destruct (nonempty (config.Raw_Value d)); [reflexivity|].
  destruct (_ && _); reflexivity.
Qed.

(** X4. Every declaration that [parseEnvVars] returns is a literal or a
    secret reference, never both: one with a value has no secret reference,
    and one with a secret reference has an empty value and a reference whose
    name and key are both non-empty. *)
Theorem parseEnvVars_literal_or_secret envArray :
  Forall
    (fun v =>
       (config.EnvVar_Value v <> EmptyString -> config.EnvVar_SecretRef v = None) /\
       (forall ref,
           config.EnvVar_SecretRef v = Some ref ->
           config.EnvVar_Value v = EmptyString /\
           config.SecretRef_Name ref <> EmptyString /\
           config.SecretRef_Key ref <> EmptyString))
    (config.parseEnvVars envArray).
Proof.
  rewrite parseEnvVars_map.
  induction envArray as [|d envArray IH]; simpl; constructor; [|exact IH].
  unfold config.parseEnvVar.
  destruct (nonempty (config.Raw_Value d)) eqn:Hv.
  - simpl. split; [reflexivity | discriminate].
  - destruct (nonempty (config.Raw_SecretKeyRef_Name d)) eqn:Hn;
      destruct (nonempty (config.Raw_SecretKeyRef_Key d)) eqn:Hk; simpl;
      (split; [congruence|]); intros ref; try discriminate.
    intros [= <-]. simpl. split; [reflexivity|].
    split; now apply nonempty_true.
Qed.

Section ContainerCount.
Context `{CD : config.Codec}.


End ContainerCount.


(** ** Decoding what is not an encoding *)

Module base64_edges.
Import base64 base64_facts.

Lemma skipNewlines_suffix pre c post si :
  isNewline c = false ->
  exists pre' si', skipNewlines (pre +:+ String c post) si = (pre' +:+ String c post, si').
Proof.
  intros Hc. revert si. induction pre as [|a pre IH]; intros si.
  - exists EmptyString, si.
    change (EmptyString +:+ String c post) with (String c post).
    cbn [skipNewlines]. now rewrite Hc.
  - change (String a pre +:+ String c post) with (String a (pre +:+ String c post)).
    cbn [skipNewlines]. destruct (isNewline a).
    + apply IH.
    + exists (String a pre), si. reflexivity.
Qed.

(** A byte that is neither in the alphabet, nor a line break, nor the
    padding character makes the decoding fail, wherever it is. *)
Lemma decode_illegal_byte pre c post si dbuf :
  decodeMap c = 255%N -> isNewline c = false -> Ascii.eqb c padChar = false ->
  exists off, decode (pre +:+ String c post) si dbuf = inr off.
Proof.
  intros Hmap Hnl Hpad. revert si dbuf. induction pre as [|a pre IH]; intros si dbuf.
  - change (EmptyString +:+ String c post) with (String c post).
    rewrite decode_String. cbv zeta. rewrite Hmap, Hnl, Hpad. cbn. eauto.
  - change (String a pre +:+ String c post) with (String a (pre +:+ String c post)).
    rewrite decode_String. cbv zeta.
    destruct (negb (decodeMap a =? 255)%N).
    { destruct dbuf as [|d0 [|d1 [|d2 [|d3 dbuf]]]]; try apply IH.
      destruct (IH (si + 1)%N []) as [off ->]. eauto. }
    destruct (isNewline a); [apply IH|].
    destruct (negb (Ascii.eqb a padChar)); [eauto|].
    destruct dbuf as [|d0 [|d1 [|d2 [|d3 dbuf]]]]; eauto.
    + destruct (skipNewlines_suffix pre c post (si + 1) Hnl) as (pre1 & si1 & ->).
      destruct pre1 as [|a1 pre1].
      * change (EmptyString +:+ String c post) with (String c post).
        cbv beta iota. rewrite Hpad. cbn [negb]. eauto.
      * change (String a1 pre1 +:+ String c post)
          with (String a1 (pre1 +:+ String c post)).
        cbv beta iota.
        destruct (negb (Ascii.eqb a1 padChar)); [eauto|].
        destruct (skipNewlines_suffix pre1 c post (si1 + 1) Hnl) as (pre3 & si3 & ->).
        destruct pre3 as [|a3 pre3].
        -- change (EmptyString +:+ String c post) with (String c post).
           cbv beta iota. eauto.
        -- change (String a3 pre3 +:+ String c post)
             with (String a3 (pre3 +:+ String c post)).
           cbv beta iota. eauto.
    + destruct (skipNewlines_suffix pre c post (si + 1) Hnl) as (pre1 & si1 & ->).
      destruct pre1 as [|a1 pre1].
      * change (EmptyString +:+ String c post) with (String c post).
        cbv beta iota. eauto.
      * change (String a1 pre1 +:+ String c post)
          with (String a1 (pre1 +:+ String c post)).
        cbv beta iota. eauto.
Qed.

Lemma newline_not_in_alphabet c : isNewline c = true -> decodeMap c = 255%N.
Proof.
  unfold isNewline. intros Hc. apply orb_true_iff in Hc.
  destruct Hc as [Hc|Hc]; apply Ascii.eqb_eq in Hc; subst c; reflexivity.
Qed.

(** Line breaks alone decode to nothing. *)
Lemma decode_only_newlines s si si' :
  fst (skipNewlines s si) = EmptyString -> decode s si' [] = inl EmptyString.
Proof.
  revert si si'. induction s as [|a s IH]; intros si si'; [reflexivity|].
  cbn [skipNewlines]. destruct (isNewline a) eqn:Hnl; [|discriminate].
  intros Hrest. rewrite decode_String. cbv zeta.
  rewrite (newline_not_in_alphabet a Hnl), Hnl. cbn [N.eqb negb Pos.eqb].
  now apply (IH (si + 1)%N).
Qed.

End base64_edges.

(** ** Package secrets *)

Section SecretEdges.
Context `{RT : Runtime}.

(** What [AccessSecretVersion] returns once the endpoint has answered. *)
Lemma AccessSecretVersion_answered c secretName version w resp w' :
  http_NewRequest "GET"
    ("https://secretmanager.googleapis.com/v1/"
     +:+ secrets.secretPath c secretName version +:+ ":access") = None ->
  http_DefaultClient_Do
    (mkRequest "GET"
       ("https://secretmanager.googleapis.com/v1/"
        +:+ secrets.secretPath c secretName version +:+ ":access")
       ("Bearer " +:+ secrets.accessToken c) EmptyString) w = (Done resp, w') ->
  secrets.AccessSecretVersion c secretName version w
  = (if ((StatusCode resp <? 200) || (299 <? StatusCode resp))%Z then
       (EmptyString,
        Some ("expected 200 response status, received " +:+ itoa (StatusCode resp)))
     else
       match json_Decode_payload_data (Body resp) with
       | Fail err => (EmptyString, Some err)
       | Done payload =>
           if negb (nonempty payload) then
             (EmptyString,
              Some ("no value for secret " +:+ secrets.secretPath c secretName version))
           else
             match base64.DecodeString payload with
             | (_, Some err) => (EmptyString, Some err)
             | (decodedData, None) => (decodedData, None)
             end
       end, w').
Proof.
  intros Hreq Hdo. unfold secrets.AccessSecretVersion. cbv zeta. rewrite Hreq, Hdo.
  destruct (_ || _)%Z; [reflexivity|].
  destruct (json_Decode_payload_data _) as [payload|err]; [|reflexivity].
  destruct (negb _); [reflexivity|].
  destruct (base64.DecodeString payload) as [decoded [err|]]; reflexivity.
Qed.

(** X6. Every status from 200 to 299 is a success for the secret fetch, not
    only 200: with such a status and a payload that is the base64 encoding of
    a non-empty byte sequence, [AccessSecretVersion] returns the bytes. *)
Theorem fetch_accepts_any_2xx c secretName version w resp w' B :
  http_NewRequest "GET"
    ("https://secretmanager.googleapis.com/v1/"
     +:+ secrets.secretPath c secretName version +:+ ":access") = None ->
  http_DefaultClient_Do
    (mkRequest "GET"
       ("https://secretmanager.googleapis.com/v1/"
        +:+ secrets.secretPath c secretName version +:+ ":access")
       ("Bearer " +:+ secrets.accessToken c) EmptyString) w = (Done resp, w') ->
  (200 <= StatusCode resp <= 299)%Z ->
  B <> EmptyString ->
  json_Decode_payload_data (Body resp) = Done (base64.EncodeToString B) ->
  secrets.AccessSecretVersion c secretName version w = ((B, None), w').
Proof.
  intros Hreq Hdo Hstatus HB Hdata.
  rewrite (AccessSecretVersion_answered _ _ _ _ _ _ Hreq Hdo), Hdata.
  destruct (Z.ltb_spec (StatusCode resp) 200); [lia|].
  destruct (Z.ltb_spec 299 (StatusCode resp)); [lia|]. cbn [orb].
  rewrite base64_facts.EncodeToString_nonempty.
  apply nonempty_true in HB. rewrite HB. cbn [negb].
  now rewrite base64_facts.DecodeString_EncodeToString.
Qed.

(** X7. A status below 200 or above 299 makes [AccessSecretVersion] fail
    with an error that carries the status; the body is not looked at, even
    when it holds a well-formed payload. *)
Theorem fetch_rejects_other_status c secretName version w resp w' :
  http_NewRequest "GET"
    ("https://secretmanager.googleapis.com/v1/"
     +:+ secrets.secretPath c secretName version +:+ ":access") = None ->
  http_DefaultClient_Do
    (mkRequest "GET"
       ("https://secretmanager.googleapis.com/v1/"
        +:+ secrets.secretPath c secretName version +:+ ":access")
       ("Bearer " +:+ secrets.accessToken c) EmptyString) w = (Done resp, w') ->
  (StatusCode resp < 200 \/ 299 < StatusCode resp)%Z ->
  secrets.AccessSecretVersion c secretName version w
  = ((EmptyString,
      Some ("expected 200 response status, received " +:+ itoa (StatusCode resp))), w').
Proof.
  intros Hreq Hdo Hstatus.
  rewrite (AccessSecretVersion_answered _ _ _ _ _ _ Hreq Hdo).
  destruct (Z.ltb_spec (StatusCode resp) 200); [reflexivity|].
  destruct (Z.ltb_spec 299 (StatusCode resp)); [reflexivity|lia].
Qed.

Lemma AccessSecretVersion_effect c secretName version w r w' :
  secrets.AccessSecretVersion c secretName version w = (r, w') ->
  fs w' = fs w /\ environ w' = environ w /\
  (sent w' = sent w \/
   sent w' = sent w ++
     [mkRequest "GET"
        ("https://secretmanager.googleapis.com/v1/"
         +:+ secrets.secretPath c secretName version +:+ ":access")
        ("Bearer " +:+ secrets.accessToken c) EmptyString]) /\
  (snd r = None ->
   sent w' = sent w ++
     [mkRequest "GET"
        ("https://secretmanager.googleapis.com/v1/"
         +:+ secrets.secretPath c secretName version +:+ ":access")
        ("Bearer " +:+ secrets.accessToken c) EmptyString]).
Proof.
  unfold secrets.AccessSecretVersion. cbv zeta.
  set (req := mkRequest "GET" _ _ _).
  destruct (http_NewRequest _ _) as [err|].
  { intros [= <- <-]. repeat split; [now left | discriminate]. }
  destruct (http_DefaultClient_Do req w) as [o w1] eqn:Hdo.
  destruct (http_DefaultClient_Do_preserves _ _ _ _ Hdo) as (Hfs & Henv & Hsent).
  assert (w1 = w' -> fs w' = fs w /\ environ w' = environ w /\
          (sent w' = sent w \/ sent w' = sent w ++ [req]) /\
          (snd r = None -> sent w' = sent w ++ [req])) as Hdone.
  { intros <-. repeat split; [exact Hfs | exact Henv | right; exact Hsent | intros _; exact Hsent]. }
  destruct o as [resp|err]; [|intros [= <- <-]; now apply Hdone].
  destruct (_ || _)%Z; [intros [= <- <-]; now apply Hdone|].
  destruct (json_Decode_payload_data _) as [payload|err];
    [|intros [= <- <-]; now apply Hdone].
  destruct (negb _); [intros [= <- <-]; now apply Hdone|].
  destruct (base64.DecodeString payload) as [decoded [err|]];
    intros [= <- <-]; now apply Hdone.
Qed.


(** X9. A payload that holds a byte outside the base64 alphabet, other than
    a line break or the padding character, makes [AccessSecretVersion] fail:
    no value is returned for it. *)
Theorem fetch_rejects_illegal_payload c secretName version w resp w' pre b post :
  http_NewRequest "GET"
    ("https://secretmanager.googleapis.com/v1/"
     +:+ secrets.secretPath c secretName version +:+ ":access") = None ->
  http_DefaultClient_Do
    (mkRequest "GET"
       ("https://secretmanager.googleapis.com/v1/"
        +:+ secrets.secretPath c secretName version +:+ ":access")
       ("Bearer " +:+ secrets.accessToken c) EmptyString) w = (Done resp, w') ->
  json_Decode_payload_data (Body resp) = Done (pre +:+ String b post) ->
  base64.decodeMap b = 255%N ->
  base64.isNewline b = false ->
  b <> base64.padChar ->
  exists err, secrets.AccessSecretVersion c secretName version w = ((EmptyString, Some err), w').
Proof.
  intros Hreq Hdo Hdata Hmap Hnl Hpad. apply Ascii.eqb_neq in Hpad.
  rewrite (AccessSecretVersion_answered _ _ _ _ _ _ Hreq Hdo), Hdata.
  destruct (_ || _)%Z; [eauto|].
  destruct (negb _); [eauto|].
  unfold base64.DecodeString.
  destruct (base64_edges.decode_illegal_byte pre b post 0 [] Hmap Hnl Hpad) as [off ->].
  eauto.
Qed.

(** X10. The emptiness check is made on the payload as it was sent. A
    payload that is not empty and holds nothing but line breaks passes it and
    decodes to nothing: [AccessSecretVersion] returns the empty string and no
    error. *)
Theorem fetch_accepts_blank_payload c secretName version w resp w' payload :
  http_NewRequest "GET"
    ("https://secretmanager.googleapis.com/v1/"
     +:+ secrets.secretPath c secretName version +:+ ":access") = None ->
  http_DefaultClient_Do
    (mkRequest "GET"
       ("https://secretmanager.googleapis.com/v1/"
        +:+ secrets.secretPath c secretName version +:+ ":access")
       ("Bearer " +:+ secrets.accessToken c) EmptyString) w = (Done resp, w') ->
  (200 <= StatusCode resp <= 299)%Z ->
  json_Decode_payload_data (Body resp) = Done payload ->
  payload <> EmptyString ->
  fst (base64.skipNewlines payload 0) = EmptyString ->
  secrets.AccessSecretVersion c secretName version w = ((EmptyString, None), w').
Proof.
  intros Hreq Hdo Hstatus Hdata Hne Hblank.
  rewrite (AccessSecretVersion_answered _ _ _ _ _ _ Hreq Hdo), Hdata.
  destruct (Z.ltb_spec (StatusCode resp) 200); [lia|].
  destruct (Z.ltb_spec 299 (StatusCode resp)); [lia|]. cbn [orb].
  apply nonempty_true in Hne. rewrite Hne. cbn [negb].
  unfold base64.DecodeString.
  now rewrite (base64_edges.decode_only_newlines payload 0 0 Hblank).
Qed.

End SecretEdges.

Lemma fetch_accepts_any_2xx_example :
  secrets.AccessSecretVersion (RT := scripted.runtime)
    (secrets.NewClient "tok" "proj") "s" "latest"
    (scripted.acquired
       (scripted.answering [Done (mkResponse 204 (scripted.payloadBody "cXV4"))]))
  = (("qux", None),
     mkWorld scripted.runtime
       (fs (scripted.acquired scripted.quiet)) (environ (scripted.acquired scripted.quiet))
       scripted.quiet
       [mkRequest "GET"
          "https://secretmanager.googleapis.com/v1/projects/proj/secrets/s/versions/latest:access"
          "Bearer tok" EmptyString]).
Proof.
  refine (fetch_accepts_any_2xx (RT := scripted.runtime)
            (secrets.NewClient "tok" "proj") "s" "latest"
            (scripted.acquired
               (scripted.answering [Done (mkResponse 204 (scripted.payloadBody "cXV4"))]))
            (mkResponse 204 (scripted.payloadBody "cXV4")) _ "qux" _ _ _ _ _).
  - reflexivity.
  - vm_compute. reflexivity.
  - cbn. lia.
  - discriminate.
  - reflexivity.
Defined.

Lemma fetch_rejects_other_status_example :
  secrets.AccessSecretVersion (RT := scripted.runtime)
    (secrets.NewClient "tok" "proj") "s" "latest"
    (scripted.acquired
       (scripted.answering [Done (mkResponse 300 (scripted.payloadBody "cXV4"))]))
  = ((EmptyString, Some "expected 200 response status, received 300"),
     mkWorld scripted.runtime
       (fs (scripted.acquired scripted.quiet)) (environ (scripted.acquired scripted.quiet))
       scripted.quiet
       [mkRequest "GET"
          "https://secretmanager.googleapis.com/v1/projects/proj/secrets/s/versions/latest:access"
          "Bearer tok" EmptyString]).
Proof.
  refine (fetch_rejects_other_status (RT := scripted.runtime)
            (secrets.NewClient "tok" "proj") "s" "latest"
            (scripted.acquired
               (scripted.answering [Done (mkResponse 300 (scripted.payloadBody "cXV4"))]))
            (mkResponse 300 (scripted.payloadBody "cXV4")) _ _ _ _).
  - reflexivity.
  - vm_compute. reflexivity.
  - right. cbn. lia.
Defined.


Lemma fetch_rejects_illegal_payload_example :
  exists err,
    secrets.AccessSecretVersion (RT := scripted.runtime)
      (secrets.NewClient "tok" "proj") "s" "latest"
      (scripted.acquired
         (scripted.answering [Done (mkResponse 200 (scripted.payloadBody "cX*4"))]))
    = ((EmptyString, Some err),
       mkWorld scripted.runtime
         (fs (scripted.acquired scripted.quiet)) (environ (scripted.acquired scripted.quiet))
         scripted.quiet
         [mkRequest "GET"
            "https://secretmanager.googleapis.com/v1/projects/proj/secrets/s/versions/latest:access"
            "Bearer tok" EmptyString]).
Proof.
  refine (fetch_rejects_illegal_payload (RT := scripted.runtime)
            (secrets.NewClient "tok" "proj") "s" "latest"
            (scripted.acquired
               (scripted.answering [Done (mkResponse 200 (scripted.payloadBody "cX*4"))]))
            (mkResponse 200 (scripted.payloadBody "cX*4")) _ "cX" "*"%char "4" _ _ _ _ _ _).
  - reflexivity.
  - vm_compute. reflexivity.
  - reflexivity.
  - reflexivity.
  - reflexivity.
  - discriminate.
Defined.

Lemma fetch_accepts_blank_payload_example :
  secrets.AccessSecretVersion (RT := scripted.runtime)
    (secrets.NewClient "tok" "proj") "s" "latest"
    (scripted.acquired
       (scripted.answering [Done (mkResponse 200 (scripted.payloadBody main.newline))]))
  = ((EmptyString, None),
     mkWorld scripted.runtime
       (fs (scripted.acquired scripted.quiet)) (environ (scripted.acquired scripted.quiet))
       scripted.quiet
       [mkRequest "GET"
          "https://secretmanager.googleapis.com/v1/projects/proj/secrets/s/versions/latest:access"
          "Bearer tok" EmptyString]).
Proof.
  refine (fetch_accepts_blank_payload (RT := scripted.runtime)
            (secrets.NewClient "tok" "proj") "s" "latest"
            (scripted.acquired
               (scripted.answering [Done (mkResponse 200 (scripted.payloadBody main.newline))]))
            (mkResponse 200 (scripted.payloadBody main.newline)) _ main.newline _ _ _ _ _ _).
  - reflexivity.
  - vm_compute. reflexivity.
  - cbn. lia.
  - reflexivity.
  - discriminate.
  - reflexivity.
Defined.

(** ** Package env *)

Section ResolveEdges.
Context `{RT : Runtime}.

Lemma resolveEnvVars_preserves c vars acc w res w' :
  env.resolveEnvVars c vars acc w = (res, w') ->
  fs w' = fs w /\ environ w' = environ w.
Proof.
  revert acc w. induction vars as [|d vars IH]; intros acc w; simpl.
  - intros [= <- <-]. split; reflexivity.
  - destruct (nonempty (config.EnvVar_Value d)); [apply IH|].
    destruct (config.EnvVar_SecretRef d) as [ref|]; [|apply IH].
    destruct (secrets.AccessSecretVersion c _ _ w) as [[v o] w1] eqn:Hfetch.
    destruct (AccessSecretVersion_effect _ _ _ _ _ _ Hfetch) as (Hfs & Henv & _).
    destruct o as [err|].
    + intros [= <- <-]. split; assumption.
    + intros Hrest. destruct (IH _ _ Hrest) as [Hfs' Henv']. split; congruence.
Qed.

(** X11. [Resolve] never touches the files or the process environment,
    whether it succeeds or fails. *)
Theorem resolve_leaves_files_alone r w res w' :
  env.Resolve r w = Some (res, w') ->
  fs w' = fs w /\ environ w' = environ w.
Proof.
  unfold env.Resolve. destruct (env.creds r) as [c|]; [|discriminate].
  intros [= Hloop]. exact (resolveEnvVars_preserves _ _ _ _ _ _ Hloop).
Qed.

Lemma resolveEnvVars_without_fetch c vars acc w :
  Forall (fun v => config.EnvVar_Value v <> EmptyString \/ config.EnvVar_SecretRef v = None)
    vars ->
  env.resolveEnvVars c vars acc w
  = ((acc ++ map (fun v => config.EnvVar_Name v +:+ "=" +:+ config.EnvVar_Value v)
               (List.filter (fun v => nonempty (config.EnvVar_Value v)) vars), None), w).
Proof.
  intros Hall. revert acc. induction Hall as [|d vars Hd _ IH]; intros acc; simpl.
  - now rewrite app_nil_r.
  - destruct (nonempty (config.EnvVar_Value d)) eqn:Hv.
    + rewrite IH. simpl. now rewrite <- app_assoc.
    + destruct Hd as [Hd | ->]; [apply nonempty_true in Hd; congruence|]. apply IH.
Qed.

(** X12. When every declaration has a value or no secret reference,
    [Resolve] cannot fail and sends nothing: it returns the metadata
    variables followed by name=value for the declarations with a value, in
    their order, and leaves the world as it is. *)
Theorem resolve_without_secrets r c w :
  env.creds r = Some c ->
  Forall (fun v => config.EnvVar_Value v <> EmptyString \/ config.EnvVar_SecretRef v = None)
    (config.EnvironmentVars (env.config r)) ->
  env.Resolve r w
  = Some ((env.metadataVars (env.config r) c
           ++ map (fun v => config.EnvVar_Name v +:+ "=" +:+ config.EnvVar_Value v)
                (List.filter (fun v => nonempty (config.EnvVar_Value v))
                   (config.EnvironmentVars (env.config r))), None), w).
Proof.
  intros Hc Hall. unfold env.Resolve. rewrite Hc.
  now rewrite resolveEnvVars_without_fetch.
Qed.



Lemma resolveEnvVars_entries c vars w entries w' :
  env.resolveEnvVars c vars [] w = ((entries, None), w') ->
  Forall2
    (fun v line =>
       exists value,
         line = config.EnvVar_Name v +:+ "=" +:+ value /\
         (config.EnvVar_Value v <> EmptyString -> value = config.EnvVar_Value v))
    (List.filter
       (fun v => nonempty (config.EnvVar_Value v)
                 || match config.EnvVar_SecretRef v with Some _ => true | None => false end)
       vars)
    entries.
Proof.
  revert w entries. induction vars as [|d vars IH]; intros w entries; simpl.
  - intros [= <- <-]. constructor.
  - destruct (nonempty (config.EnvVar_Value d)) eqn:Hv; simpl.
    + rewrite resolveEnvVars_acc.
      destruct (env.resolveEnvVars c vars [] w) as [[out [err|]] w1] eqn:Hrest;
        [discriminate|].
      intros [= <- <-]. constructor; [|now apply (IH w)]. eauto.
    + destruct (config.EnvVar_SecretRef d) as [ref|]; [|apply IH].
      destruct (secrets.AccessSecretVersion c _ _ w) as [[v [err|]] w1]; [discriminate|].
      rewrite resolveEnvVars_acc.
      destruct (env.resolveEnvVars c vars [] w1) as [[out [err|]] w2] eqn:Hrest;
        [discriminate|].
      intros [= <- <-]. constructor; [|now apply (IH w1)].
      exists v. split; [reflexivity|]. intros Hne. apply nonempty_true in Hne. congruence.
Qed.

(** X14. The entries of a successful [Resolve] after the metadata variables
    follow the declarations: one entry for each declaration that has a value
    or a secret reference, in their order, each the name of the declaration,
    an equals sign and a value, which is the literal when there is one.
    Nothing is sorted, merged or dropped when two declarations share a
    name. *)
Theorem resolve_entries_follow_declarations r c w out w' :
  env.creds r = Some c ->
  env.Resolve r w = Some ((out, None), w') ->
  exists entries,
    out = env.metadataVars (env.config r) c ++ entries /\
    Forall2
      (fun v line =>
         exists value,
           line = config.EnvVar_Name v +:+ "=" +:+ value /\
           (config.EnvVar_Value v <> EmptyString -> value = config.EnvVar_Value v))
      (List.filter
         (fun v => nonempty (config.EnvVar_Value v)
                   || match config.EnvVar_SecretRef v with Some _ => true | None => false end)
         (config.EnvironmentVars (env.config r)))
      entries.
Proof.
  intros Hc. unfold env.Resolve. rewrite Hc, resolveEnvVars_acc.
  destruct (env.resolveEnvVars _ _ [] w) as [[entries [err|]] w1] eqn:Hloop; [discriminate|].
  intros [= <- <-]. exists entries. split; [reflexivity|].
  exact (resolveEnvVars_entries _ _ _ _ _ Hloop).
Qed.

End ResolveEdges.

(** ** Package auth *)

Section AcquireEdges.
Context `{RT : Runtime}.

(** X15. [randomLower] returns as many bytes as it is asked for, each a
    lowercase letter, and uses nothing of the world but the generator. *)
Theorem randomLower_letters n w :
  String.length (fst (auth.randomLower n w)) = n /\
  spec.all_lowercase (fst (auth.randomLower n w)) /\
  fs (snd (auth.randomLower n w)) = fs w /\
  environ (snd (auth.randomLower n w)) = environ w /\
  sent (snd (auth.randomLower n w)) = sent w.
Proof.
  destruct (auth.randomLower n w) as [s w'] eqn:Hrand.
  exact (randomLower_spec _ _ _ _ Hrand).
Qed.




(** X18. The token exchange accepts status 200 only: any other status, a
    201 or a 204 as well, makes [fetchImpersonatedAccessToken] fail with an
    error that carries the status and the body of the answer, and
    [GetImpersonatedCredentials] fail with it without writing a file. *)
Theorem token_exchange_rejects_other_status target w creds e1 tok e2 resp w2 adc :
  auth.applicationDefaultCredentials w = (adc, None) ->
  google_FindDefaultCredentials auth.cloudPlatformScope (ext w) = (Done creds, e1) ->
  TokenSource_Token creds e1 = (Done tok, e2) ->
  tok <> EmptyString ->
  http_NewRequest "POST" (auth.impersonationURL target) = None ->
  http_DefaultClient_Do
    (mkRequest "POST" (auth.impersonationURL target) ("Bearer " +:+ tok)
       (auth.json_Marshal_request ["projects/-/serviceAccounts/" +:+ target]
          [auth.cloudPlatformScope]))
    (with_ext (with_ext w e1) e2) = (Done resp, w2) ->
  StatusCode resp <> 200%Z ->
  auth.fetchImpersonatedAccessToken target w
  = ((EmptyString,
      Some ("failed to generate access token (status " +:+ itoa (StatusCode resp)
            +:+ "): " +:+ Body resp)), w2) /\
  auth.GetImpersonatedCredentials target w
  = ((None,
      Some ("fetch impersonated access token: "
            +:+ ("failed to generate access token (status " +:+ itoa (StatusCode resp)
                 +:+ "): " +:+ Body resp))), w2) /\
  fs w2 = fs w.
Proof.
  intros Hadc Hfind Htoken Htok Hreq Hdo Hstatus. apply nonempty_true in Htok.
  assert (auth.fetchImpersonatedAccessToken target w
          = ((EmptyString,
              Some ("failed to generate access token (status " +:+ itoa (StatusCode resp)
                    +:+ "): " +:+ Body resp)), w2)) as Hfetch.
  { unfold auth.fetchImpersonatedAccessToken. cbv zeta.
    rewrite Hfind. cbn [ext with_ext]. rewrite Htoken, Htok. cbn [negb].
    rewrite Hreq, Hdo.
    destruct (Z.eqb_spec (StatusCode resp) 200); [contradiction|reflexivity]. }
  split; [exact Hfetch|]. split.
  - unfold auth.GetImpersonatedCredentials. rewrite Hadc, Hfetch. reflexivity.
  - apply (fetchImpersonatedAccessToken_preserves _ _ _ _ Hfetch).
Qed.

Lemma GetImpersonatedCredentials_writes target w c w' :
  auth.GetImpersonatedCredentials target w = ((Some c, None), w') ->
  exists content,
    fs w'
    = <[auth.CredsFile c :=
          mkFile (match fs w !! auth.CredsFile c with Some f => perm f | None => 384%N end)
                 content]> (fs w).
Proof.
  unfold auth.GetImpersonatedCredentials.
  destruct (auth.applicationDefaultCredentials w) as [adc [e|]]; [discriminate|].
  destruct (auth.fetchImpersonatedAccessToken target w) as [[tok [e|]] w1] eqn:Hfetch;
    [discriminate|].
  destruct (auth.createDelegatedCredsFile adc target w1) as [[path [e|]] w2] eqn:Hcreate;
    [discriminate|].
  intros [= <- <-]. cbn [auth.CredsFile].
  destruct (fetchImpersonatedAccessToken_preserves _ _ _ _ Hfetch) as [Hfs _].
  destruct (createDelegatedCredsFile_writes _ _ _ _ _ Hcreate)
    as (content & suffix & _ & _ & _ & _ & Hfs2).
  exists content. now rewrite Hfs2, Hfs.
Qed.


(** X19. The artifact of a successful acquisition has the permission bits
    0600 when no file of that name existed; a file that existed under the
    name is overwritten and keeps the permission bits it had. *)
Theorem artifact_permissions target w c w' :
  auth.GetImpersonatedCredentials target w = ((Some c, None), w') ->
  exists f,
    fs w' !! auth.CredsFile c = Some f /\
    perm f = match fs w !! auth.CredsFile c with
             | Some old => perm old
             | None => 384%N
             end.
Proof.
  intros Hacquire.
  destruct (GetImpersonatedCredentials_writes _ _ _ _ Hacquire) as [content ->].
  eexists. split; [apply lookup_insert_eq | reflexivity].
Qed.




End AcquireEdges.

(** ** Package main *)

Section RunFacts.
Context `{RT : Runtime} `{CD : config.Codec} `{PR : !main.Process}.


(** X22. Without standing credentials [run] fails before anything is sent
    or written: the error of [applicationDefaultCredentials] comes back
    wrapped by [NewResolver] and by [run], the world is as it was, and [main]
    reports it on the standard error and exits with status 1. *)
Theorem run_without_standing_credentials flags w cfg err :
  main.showVersion flags = false ->
  main.showHelp flags = false ->
  config.Parse (main.configFile flags) w = (Some cfg, None) ->
  snd (auth.applicationDefaultCredentials w) = Some err ->
  main.run flags w
  = (main.mkOutcome
       (main.Returned
          (Some ("create env resolver: " +:+ ("get impersonated credentials: " +:+ err))))
       [] [], w) /\
  main.main flags w
  = ((1%Z, [],
      ["Error: " +:+ ("create env resolver: " +:+ ("get impersonated credentials: " +:+ err))
       +:+ main.newline]), w).
Proof.
  intros Hv Hh Hparse Hadc.
  assert (main.run flags w
          = (main.mkOutcome
               (main.Returned
                  (Some ("create env resolver: "
                         +:+ ("get impersonated credentials: " +:+ err))))
               [] [], w)) as Hrun.
  { unfold main.run, env.NewResolver, auth.GetImpersonatedCredentials.
    rewrite Hv, Hh, Hparse.
    destruct (auth.applicationDefaultCredentials w) as [adc o]. cbn [snd] in Hadc.
    rewrite Hadc. reflexivity. }
  split; [exact Hrun|]. unfold main.main. rewrite Hrun. reflexivity.
Qed.


(** X24. When the child exits with a status other than zero, [run] ends the
    process with that status from inside, and the deferred cleanup does not
    run: the world at the end is the one the child left, with the artifact in
    it if the child did not remove it, and nothing is reported. *)
Theorem run_exit_status_skips_cleanup flags w cfg resolver w1 envVars w2 code w3 :
  main.showVersion flags = false ->
  main.showHelp flags = false ->
  config.Parse (main.configFile flags) w = (Some cfg, None) ->
  env.NewResolver cfg w = ((Some resolver, None), w1) ->
  env.Resolve resolver w1 = Some ((envVars, None), w2) ->
  main.command flags <> [] ->
  main.exec_Run (main.command flags) (envVars ++ main.os_Environ w2) w2
  = (main.ExitError code, w3) ->
  main.run flags w = (main.mkOutcome (main.Exited code) [] [], w3) /\
  main.main flags w = ((code, [], []), w3).
Proof.
  intros Hv Hh Hparse Hnew Hresolve Hcmd Hexec.
  assert (main.run flags w = (main.mkOutcome (main.Exited code) [] [], w3)) as Hrun.
  { unfold main.run. rewrite Hv, Hh, Hparse, Hnew, Hresolve.
    destruct (main.command flags) as [|arg args]; [contradiction|].
    rewrite Hexec. reflexivity. }
  split; [exact Hrun|]. unfold main.main. rewrite Hrun. reflexivity.
Qed.

End RunFacts.

(** ** The further properties on the scripted runtime *)

Lemma resolve_leaves_files_alone_example :
  fs (mkWorld scripted.runtime
        (fs (scripted.acquired scripted.quiet)) (environ (scripted.acquired scripted.quiet))
        scripted.quiet
        [mkRequest "GET"
           "https://secretmanager.googleapis.com/v1/projects/proj/secrets/s/versions/latest:access"
           "Bearer tok" EmptyString])
  = fs (scripted.acquired
          (scripted.answering [Done (mkResponse 200 (scripted.payloadBody "cXV4"))])) /\
  environ (mkWorld scripted.runtime
             (fs (scripted.acquired scripted.quiet))
             (environ (scripted.acquired scripted.quiet))
             scripted.quiet
             [mkRequest "GET"
                "https://secretmanager.googleapis.com/v1/projects/proj/secrets/s/versions/latest:access"
                "Bearer tok" EmptyString])
  = environ (scripted.acquired
               (scripted.answering [Done (mkResponse 200 (scripted.payloadBody "cXV4"))])).
Proof.
  refine (resolve_leaves_files_alone (RT := scripted.runtime) scripted.resolver
            (scripted.acquired
               (scripted.answering [Done (mkResponse 200 (scripted.payloadBody "cXV4"))]))
            (["K_SERVICE=svc"; "K_REVISION=local"; "GOOGLE_CLOUD_PROJECT=proj";
              "GOOGLE_APPLICATION_CREDENTIALS=/tmp/cloudrun-local-creds-abcdefgh.json";
              "FOO=bar"; "BAZ=qux"], None) _ _).
  vm_compute. reflexivity.
Defined.

Lemma resolve_without_secrets_example :
  env.Resolve (RT := scripted.runtime)
    (env.mkResolver
       (config.mkConfig "svc" "sa@proj.iam.gserviceaccount.com" "proj"
          [config.mkEnvVar "FOO" "bar" (Some (config.mkSecretRef "s" "latest"));
           config.mkEnvVar "NONE" EmptyString None])
       (Some (auth.mkCredentials "tok" scripted.artifact)))
    (scripted.acquired scripted.quiet)
  = Some
      ((env.metadataVars
          (env.config
             (env.mkResolver
                (config.mkConfig "svc" "sa@proj.iam.gserviceaccount.com" "proj"
                   [config.mkEnvVar "FOO" "bar" (Some (config.mkSecretRef "s" "latest"));
                    config.mkEnvVar "NONE" EmptyString None])
                (Some (auth.mkCredentials "tok" scripted.artifact))))
          (auth.mkCredentials "tok" scripted.artifact)
        ++ map (fun v => config.EnvVar_Name v +:+ "=" +:+ config.EnvVar_Value v)
             (List.filter (fun v => nonempty (config.EnvVar_Value v))
                (config.EnvironmentVars
                   (env.config
                      (env.mkResolver
                         (config.mkConfig "svc" "sa@proj.iam.gserviceaccount.com" "proj"
                            [config.mkEnvVar "FOO" "bar"
                               (Some (config.mkSecretRef "s" "latest"));
                             config.mkEnvVar "NONE" EmptyString None])
                         (Some (auth.mkCredentials "tok" scripted.artifact)))))),
        None),
       scripted.acquired scripted.quiet).
Proof.
  refine (resolve_without_secrets (RT := scripted.runtime) _ _ _ _ _).
  - reflexivity.
  - constructor; [left; discriminate|]. constructor; [right; reflexivity|]. constructor.
Defined.


Lemma resolve_entries_follow_declarations_example :
  exists entries,
    ["K_SERVICE=svc"; "K_REVISION=local"; "GOOGLE_CLOUD_PROJECT=proj";
     "GOOGLE_APPLICATION_CREDENTIALS=/tmp/cloudrun-local-creds-abcdefgh.json";
     "FOO=bar"; "BAZ=qux"]
    = env.metadataVars (env.config scripted.resolver)
        (auth.mkCredentials "tok" scripted.artifact) ++ entries /\
    Forall2
      (fun v line =>
         exists value,
           line = config.EnvVar_Name v +:+ "=" +:+ value /\
           (config.EnvVar_Value v <> EmptyString -> value = config.EnvVar_Value v))
      (List.filter
         (fun v => nonempty (config.EnvVar_Value v)
                   || match config.EnvVar_SecretRef v with Some _ => true | None => false end)
         (config.EnvironmentVars (env.config scripted.resolver)))
      entries.
Proof.
  refine (resolve_entries_follow_declarations (RT := scripted.runtime) scripted.resolver
            (auth.mkCredentials "tok" scripted.artifact)
            (scripted.acquired
               (scripted.answering [Done (mkResponse 200 (scripted.payloadBody "cXV4"))]))
            _
            (mkWorld scripted.runtime
               (fs (scripted.acquired scripted.quiet))
               (environ (scripted.acquired scripted.quiet))
               scripted.quiet
               [mkRequest "GET"
                  "https://secretmanager.googleapis.com/v1/projects/proj/secrets/s/versions/latest:access"
                  "Bearer tok" EmptyString]) _ _).
  - reflexivity.
  - vm_compute. reflexivity.
Defined.


Lemma token_exchange_rejects_other_status_example :
  auth.fetchImpersonatedAccessToken (RT := scripted.runtime)
    "sa@proj.iam.gserviceaccount.com"
    (scripted.workstation (scripted.answering [Done (mkResponse 204 "no content")]))
  = ((EmptyString,
      Some ("failed to generate access token (status "
            +:+ itoa (StatusCode (mkResponse 204 "no content"))
            +:+ "): " +:+ Body (mkResponse 204 "no content"))),
     snd (auth.fetchImpersonatedAccessToken (RT := scripted.runtime)
            "sa@proj.iam.gserviceaccount.com"
            (scripted.workstation
               (scripted.answering [Done (mkResponse 204 "no content")])))) /\
  auth.GetImpersonatedCredentials (RT := scripted.runtime)
    "sa@proj.iam.gserviceaccount.com"
    (scripted.workstation (scripted.answering [Done (mkResponse 204 "no content")]))
  = ((None,
      Some ("fetch impersonated access token: "
            +:+ ("failed to generate access token (status "
                 +:+ itoa (StatusCode (mkResponse 204 "no content"))
                 +:+ "): " +:+ Body (mkResponse 204 "no content")))),
     snd (auth.fetchImpersonatedAccessToken (RT := scripted.runtime)
            "sa@proj.iam.gserviceaccount.com"
            (scripted.workstation
               (scripted.answering [Done (mkResponse 204 "no content")])))) /\
  fs (snd (auth.fetchImpersonatedAccessToken (RT := scripted.runtime)
             "sa@proj.iam.gserviceaccount.com"
             (scripted.workstation
                (scripted.answering [Done (mkResponse 204 "no content")]))))
  = fs (scripted.workstation (scripted.answering [Done (mkResponse 204 "no content")])).
Proof.
  refine (token_exchange_rejects_other_status (RT := scripted.runtime)
            "sa@proj.iam.gserviceaccount.com"
            (scripted.workstation (scripted.answering [Done (mkResponse 204 "no content")]))
            tt (scripted.answering [Done (mkResponse 204 "no content")])
            "caller-token" (scripted.answering [Done (mkResponse 204 "no content")])
            (mkResponse 204 "no content") _ scripted.adcJSON _ _ _ _ _ _ _).
  - vm_compute. reflexivity.
  - reflexivity.
  - reflexivity.
  - discriminate.
  - reflexivity.
  - vm_compute. reflexivity.
  - discriminate.
Defined.

Lemma artifact_permissions_example :
  exists f,
    fs (snd (auth.GetImpersonatedCredentials (RT := scripted.runtime)
               "sa@proj.iam.gserviceaccount.com"
               (scripted.workstation
                  (scripted.answering [Done (mkResponse 200 (scripted.tokenBody "tok"))]))))
      !! auth.CredsFile
           (auth.mkCredentials "tok" "/tmp/cloudrun-local-creds-hcfihgfs.json")
    = Some f /\
    perm f
    = match fs (scripted.workstation
                  (scripted.answering [Done (mkResponse 200 (scripted.tokenBody "tok"))]))
              !! auth.CredsFile
                   (auth.mkCredentials "tok" "/tmp/cloudrun-local-creds-hcfihgfs.json") with
      | Some old => perm old
      | None => 384%N
      end.
Proof.
  refine (artifact_permissions (RT := scripted.runtime)
            "sa@proj.iam.gserviceaccount.com"
            (scripted.workstation
               (scripted.answering [Done (mkResponse 200 (scripted.tokenBody "tok"))]))
            (auth.mkCredentials "tok" "/tmp/cloudrun-local-creds-hcfihgfs.json") _ _).
  vm_compute. reflexivity.
Defined.



Lemma run_without_standing_credentials_example :
  main.run (RT := scripted.runtime) (CD := scripted.codec) (PR := scripted_process.process)
    (main.mkFlags "service.yaml" false false [])
    (mkWorld scripted.runtime {[ "service.yaml" := mkFile 420 scripted.descriptorText ]}
       {[ "HOME" := "/home/dev" ]} scripted.quiet [])
  = (main.mkOutcome
       (main.Returned
          (Some ("create env resolver: "
                 +:+ ("get impersonated credentials: "
                      +:+ "no application default credentials found. Please authenticate using 'gcloud auth application-default login'"))))
       [] [],
     mkWorld scripted.runtime {[ "service.yaml" := mkFile 420 scripted.descriptorText ]}
       {[ "HOME" := "/home/dev" ]} scripted.quiet []).
Proof.
  refine (proj1
            (run_without_standing_credentials (RT := scripted.runtime)
               (CD := scripted.codec) (PR := scripted_process.process)
               (main.mkFlags "service.yaml" false false [])
               (mkWorld scripted.runtime
                  {[ "service.yaml" := mkFile 420 scripted.descriptorText ]}
                  {[ "HOME" := "/home/dev" ]} scripted.quiet [])
               scripted.cfg _ _ _ _ _)).
  - reflexivity.
  - reflexivity.
  - vm_compute. reflexivity.
  - vm_compute. reflexivity.
Defined.


Lemma run_exit_status_skips_cleanup_example :
  main.run (RT := scripted.runtime) (CD := scripted.codec) (PR := scripted_process.process)
    (main.mkFlags "service.yaml" false false ["false"]) scripted_process.ready
  = (main.mkOutcome (main.Exited 1) [] [],
     snd (main.run (RT := scripted.runtime) (CD := scripted.codec)
            (PR := scripted_process.process)
            (main.mkFlags "service.yaml" false false ["false"]) scripted_process.ready)) /\
  fs (snd (main.run (RT := scripted.runtime) (CD := scripted.codec)
             (PR := scripted_process.process)
             (main.mkFlags "service.yaml" false false ["false"]) scripted_process.ready))
    !! "/tmp/cloudrun-local-creds-hcfihgfs.json"
  <> None.
Proof.
  split.
  - refine (proj1
              (run_exit_status_skips_cleanup (RT := scripted.runtime) (CD := scripted.codec)
                 (PR := scripted_process.process)
                 (main.mkFlags "service.yaml" false false ["false"]) scripted_process.ready
                 scripted.cfg
                 (env.mkResolver scripted.cfg
                    (Some (auth.mkCredentials "tok"
                             "/tmp/cloudrun-local-creds-hcfihgfs.json")))
                 (snd (env.NewResolver (RT := scripted.runtime) scripted.cfg
                         scripted_process.ready))
                 ["K_SERVICE=svc"; "K_REVISION=local"; "GOOGLE_CLOUD_PROJECT=proj";
                  "GOOGLE_APPLICATION_CREDENTIALS=/tmp/cloudrun-local-creds-hcfihgfs.json";
                  "FOO=bar"; "BAZ=qux"]
                 (snd (main.run (RT := scripted.runtime) (CD := scripted.codec)
                         (PR := scripted_process.process)
                         (main.mkFlags "service.yaml" false false ["false"])
                         scripted_process.ready))
                 1%Z _ _ _ _ _ _ _ _)).
    + reflexivity.
    + reflexivity.
    + vm_compute. reflexivity.
    + vm_compute. reflexivity.
    + vm_compute. reflexivity.
    + discriminate.
    + vm_compute. reflexivity.
  - vm_compute. discriminate.
Defined.
